(** * The token dapp's session and transaction controller

    A shallow embedding of the [Dapp] function component
    (frontend/src/components: wallet connection, network check, balance
    polling, token transfer, reset), followed by the properties its
    specification states about it.

    The component is event driven.  Its state lives in three [useRef] cells
    and five [useState] cells; the browser around it contributes the interval
    timers, the listeners registered on [window.ethereum], the console and
    the wallet's network id.  The wallet prompt and the token contract are
    remote: what they answer is not decided by the component, so they are an
    interface ([Remote]) and every theorem holds for every implementation of
    it. *)

From Stdlib Require Import ZArith.
From stdpp Require Import base option list gmap strings pretty.

Local Open Scope string_scope.
Local Open Scope list_scope.
Local Open Scope nat_scope.

(** ** JavaScript values *)

(** A cell that holds [undefined], [null] or a value.  [useState()] and
    [useRef()] start at [undefined]; [resetState] and the dismiss functions
    store [null]. *)
Inductive JsVal (A : Type) : Type :=
| Undefined
| Null
| Val (a : A).
Arguments Undefined {A}.
Arguments Null {A}.
Arguments Val {A} a.

(** [v == null]: the cell holds no value. *)
Definition nullish {A} (v : JsVal A) : bool :=
  match v with
  | Val _ => false
  | _ => true
  end.

(** [const [x] = xs]: the first element, [undefined] when there is none. *)
Definition first_of {A} (xs : list A) : JsVal A :=
  match xs with
  | [] => Undefined
  | x :: _ => Val x
  end.

Definition Address := string.

(** A thrown value or a promise's rejection reason: [code] as wallets set it,
    [message], and [data.message] when the error has a [data] member. *)
Record JsError := {
  err_code : option Z;
  err_message : string;
  err_data : option string
}.

(** [new Error(msg)] *)
Definition Error (msg : string) : JsError :=
  {| err_code := None; err_message := msg; err_data := None |}.

(** Reading a member of [undefined] or [null]. *)
Definition TypeError : JsError := Error "Cannot read properties of undefined".

Record TokenData := { name : string; symbol : string }.
Record TransactionResponse := { hash : string }.
Record Receipt := { status : Z }.
Record Contract := { contract_at : string; contract_signer : nat }.

Definition HARDHAT_NETWORK_ID : string := "31337".
Definition ERROR_CODE_TX_REJECTED_BY_USER : Z := 4001.

(** ** The remote side *)

(** How a promise ends: resolved, rejected, or never settled. *)
Inductive Reply (A : Type) : Type :=
| Resolved (a : A)
| Rejected (e : JsError)
| Unsettled.
Arguments Resolved {A} a.
Arguments Rejected {A} e.
Arguments Unsettled {A}.

(** The wallet prompt and the contract calls, as a state machine of an
    arbitrary state type [B].  [contractAddress] is the deployed address read
    from contracts/contract-address.json, a build artefact. *)
Class Remote (B : Type) := {
  contractAddress : string;
  ethereum_enable : B → Reply (list Address) * B;
  token_name : B → Reply string * B;
  token_symbol : B → Reply string * B;
  token_balanceOf : JsVal Address → B → Reply N * B;
  token_transfer : Address → N → B → Reply TransactionResponse * B;
  tx_wait : TransactionResponse → B → Reply Receipt * B
}.

(** The remote calls a run makes, in order. *)
Inductive Call :=
| CallEnable
| CallName
| CallSymbol
| CallBalanceOf (a : JsVal Address)
| CallTransfer (to : Address) (amount : N)
| CallWait (tx : TransactionResponse).

(** ** The component and the browser *)

(** The two closures [connectWallet] hands to [window.ethereum.on]. *)
Inductive Listener :=
| OnAccountsChanged
| OnNetworkChanged.

(** What the wallet emits. *)
Inductive Event :=
| AccountsChanged (accounts : list Address)
| NetworkChanged (id : string).

Definition event_name (ev : Event) : string :=
  match ev with
  | AccountsChanged _ => "accountsChanged"
  | NetworkChanged _ => "networkChanged"
  end.

Inductive LogEntry :=
| LogText (s : string)
| LogError (e : JsError).

(** The refs and the state cells of [Dapp]. *)
Record Component := {
  token : JsVal Contract;
  pollDataInterval : JsVal nat;
  myAddress : JsVal Address;
  tokenData : JsVal TokenData;
  balance : JsVal N;
  txBeingSent : JsVal string;
  transactionError : JsVal JsError;
  networkError : JsVal string
}.

(** The part of the browser the component acts on.  [intervals] are the
    interval timers that are alive, [next_interval] the id the next
    [setInterval] returns, [unhandled] the rejections of promises nobody
    awaited. *)
Record Window := {
  networkVersion : string;
  listeners : list (string * Listener);
  intervals : gset nat;
  next_interval : nat;
  console : list LogEntry;
  unhandled : list JsError
}.

Record World (B : Type) := {
  dapp : Component;
  window : Window;
  calls : list Call;
  remote : B
}.
Arguments dapp {B} w.
Arguments window {B} w.
Arguments calls {B} w.
Arguments remote {B} w.

(** The screens of the page. *)
Inductive View :=
| ConnectWalletView
| LoadingView
| DappView.

Definition initial_component : Component :=
  {| token := Undefined; pollDataInterval := Undefined; myAddress := Undefined;
     tokenData := Undefined; balance := Undefined; txBeingSent := Undefined;
     transactionError := Undefined; networkError := Undefined |}.

Definition initial_window (net : string) : Window :=
  {| networkVersion := net; listeners := []; intervals := ∅;
     next_interval := 1; console := []; unhandled := [] |}.

(** The page right after the first render, before any click. *)
Definition initial_world {B} (net : string) (b : B) : World B :=
  {| dapp := initial_component; window := initial_window net;
     calls := []; remote := b |}.

(** *** Field updates *)

Definition with_token v (c : Component) : Component :=
  {| token := v; pollDataInterval := pollDataInterval c;
     myAddress := myAddress c; tokenData := tokenData c; balance := balance c;
     txBeingSent := txBeingSent c; transactionError := transactionError c;
     networkError := networkError c |}.
Definition with_pollDataInterval v (c : Component) : Component :=
  {| token := token c; pollDataInterval := v;
     myAddress := myAddress c; tokenData := tokenData c; balance := balance c;
     txBeingSent := txBeingSent c; transactionError := transactionError c;
     networkError := networkError c |}.
Definition with_myAddress v (c : Component) : Component :=
  {| token := token c; pollDataInterval := pollDataInterval c;
     myAddress := v; tokenData := tokenData c; balance := balance c;
     txBeingSent := txBeingSent c; transactionError := transactionError c;
     networkError := networkError c |}.
Definition with_tokenData v (c : Component) : Component :=
  {| token := token c; pollDataInterval := pollDataInterval c;
     myAddress := myAddress c; tokenData := v; balance := balance c;
     txBeingSent := txBeingSent c; transactionError := transactionError c;
     networkError := networkError c |}.
Definition with_balance v (c : Component) : Component :=
  {| token := token c; pollDataInterval := pollDataInterval c;
     myAddress := myAddress c; tokenData := tokenData c; balance := v;
     txBeingSent := txBeingSent c; transactionError := transactionError c;
     networkError := networkError c |}.
Definition with_txBeingSent v (c : Component) : Component :=
  {| token := token c; pollDataInterval := pollDataInterval c;
     myAddress := myAddress c; tokenData := tokenData c; balance := balance c;
     txBeingSent := v; transactionError := transactionError c;
     networkError := networkError c |}.
Definition with_transactionError v (c : Component) : Component :=
  {| token := token c; pollDataInterval := pollDataInterval c;
     myAddress := myAddress c; tokenData := tokenData c; balance := balance c;
     txBeingSent := txBeingSent c; transactionError := v;
     networkError := networkError c |}.
Definition with_networkError v (c : Component) : Component :=
  {| token := token c; pollDataInterval := pollDataInterval c;
     myAddress := myAddress c; tokenData := tokenData c; balance := balance c;
     txBeingSent := txBeingSent c; transactionError := transactionError c;
     networkError := v |}.

Definition with_networkVersion v (x : Window) : Window :=
  {| networkVersion := v; listeners := listeners x; intervals := intervals x;
     next_interval := next_interval x; console := console x;
     unhandled := unhandled x |}.
Definition with_listeners v (x : Window) : Window :=
  {| networkVersion := networkVersion x; listeners := v;
     intervals := intervals x; next_interval := next_interval x;
     console := console x; unhandled := unhandled x |}.
Definition with_timers (live : gset nat) (next : nat) (x : Window) : Window :=
  {| networkVersion := networkVersion x; listeners := listeners x;
     intervals := live; next_interval := next; console := console x;
     unhandled := unhandled x |}.
Definition with_console v (x : Window) : Window :=
  {| networkVersion := networkVersion x; listeners := listeners x;
     intervals := intervals x; next_interval := next_interval x;
     console := v; unhandled := unhandled x |}.
Definition with_unhandled v (x : Window) : Window :=
  {| networkVersion := networkVersion x; listeners := listeners x;
     intervals := intervals x; next_interval := next_interval x;
     console := console x; unhandled := v |}.

Definition on_dapp {B} (f : Component → Component) (w : World B) : World B :=
  {| dapp := f (dapp w); window := window w; calls := calls w;
     remote := remote w |}.
Definition on_window {B} (f : Window → Window) (w : World B) : World B :=
  {| dapp := dapp w; window := f (window w); calls := calls w;
     remote := remote w |}.
Definition called {B} (c : Call) (b : B) (w : World B) : World B :=
  {| dapp := dapp w; window := window w; calls := calls w ++ [c];
     remote := b |}.

(** ** Running the component's functions *)

(** How far a function got: it returned, it threw (an [async] function's
    promise rejected), or it is suspended on a promise that never settles. *)
Inductive Res (A : Type) : Type :=
| Ok (a : A)
| Thrown (e : JsError)
| Pending.
Arguments Ok {A} a.
Arguments Thrown {A} e.
Arguments Pending {A}.

Definition settled {A} (r : Res A) : bool :=
  match r with
  | Pending => false
  | _ => true
  end.

Section Dapp.
Context {B : Type} `{Remote B}.

(** A function of the component acts on the world and ends in a [Res].
    The replies of awaited calls are delivered in the order the calls are
    made, so a function runs until it settles or until a promise it awaits
    stays unsettled. *)
Definition M (A : Type) : Type := World B → Res A * World B.

#[export] Instance M_ret : MRet M := λ A a w, (Ok a, w).

#[export] Instance M_bind : MBind M := λ A C k m w,
  match m w with
  | (Ok a, w') => k a w'
  | (Thrown e, w') => (Thrown e, w')
  | (Pending, w') => (Pending, w')
  end.

Definition throw {A} (e : JsError) : M A := λ w, (Thrown e, w).

(** [try { body } catch (error) { handler }] *)
Definition try_catch {A} (body : M A) (handler : JsError → M A) : M A :=
  λ w,
    match body w with
    | (Thrown e, w') => handler e w'
    | other => other
    end.

(** [try { body } finally { fin }]: [fin] runs when [body] returned or
    threw, not while it is suspended. *)
Definition try_finally {A} (body : M A) (fin : M unit) : M A :=
  λ w,
    match body w with
    | (Pending, w') => (Pending, w')
    | (r, w') =>
        match fin w' with
        | (Ok _, w'') => (r, w'')
        | (Thrown e, w'') => (Thrown e, w'')
        | (Pending, w'') => (Pending, w'')
        end
    end.

(** [await call(...)] on the remote side; the call is recorded. *)
Definition await {A} (c : Call) (call : B → Reply A * B) : M A :=
  λ w,
    let '(r, b) := call (remote w) in
    match r with
    | Resolved a => (Ok a, called c b w)
    | Rejected e => (Thrown e, called c b w)
    | Unsettled => (Pending, called c b w)
    end.

(** Calling an [async] function without awaiting it: the caller goes on
    whatever becomes of the promise, and a rejection is unhandled.  The
    function runs as far as it gets at the point of the call, so what it does
    after its awaits is not interleaved with the caller or with later
    events. *)
Definition spawn (m : M unit) : M unit :=
  λ w,
    match m w with
    | (Thrown e, w') =>
        (Ok (), on_window (λ x, with_unhandled (unhandled x ++ [e]) x) w')
    | (_, w') => (Ok (), w')
    end.

Definition reading {A} (f : Component → A) : M A := λ w, (Ok (f (dapp w)), w).
Definition writing (f : Component → Component) : M unit :=
  λ w, (Ok (), on_dapp f w).

(** The effect of a function on the world. *)
Definition exec {A} (m : M A) (w : World B) : World B := (m w).2.

(** *** React state setters and browser primitives *)

Definition setTokenData v : M unit := writing (with_tokenData v).
Definition setBalance v : M unit := writing (with_balance v).
Definition setTxBeingSent v : M unit := writing (with_txBeingSent v).
Definition setTransactionError v : M unit := writing (with_transactionError v).
Definition setNetworkError v : M unit := writing (with_networkError v).

Definition console_log (s : string) : M unit :=
  λ w, (Ok (), on_window (λ x, with_console (console x ++ [LogText s]) x) w).
Definition console_error (e : JsError) : M unit :=
  λ w, (Ok (), on_window (λ x, with_console (console x ++ [LogError e]) x) w).

(** [setInterval(() => updateBalance(), 1000)]: a new timer under a fresh
    id.  Every timer of this component has that same callback. *)
Definition setInterval : M nat :=
  λ w,
    let id := next_interval (window w) in
    (Ok id,
     on_window (λ x, with_timers ({[id]} ∪ intervals x) (S id) x) w).

(** [clearInterval(v)]: nothing happens for [undefined] or a dead id. *)
Definition clearInterval (v : JsVal nat) : M unit :=
  λ w,
    match v with
    | Val id =>
        (Ok (),
         on_window
           (λ x, with_timers (intervals x ∖ {[id]}) (next_interval x) x) w)
    | _ => (Ok (), w)
    end.

(** [window.ethereum.on(name, listener)] *)
Definition ethereum_on (ev : string) (l : Listener) : M unit :=
  λ w, (Ok (), on_window (λ x, with_listeners (listeners x ++ [(ev, l)]) x) w).

(** [token.current.<method>]: a [TypeError] unless the ref holds the
    contract. *)
Definition token_current : M Contract :=
  λ w,
    match token (dapp w) with
    | Val c => (Ok c, w)
    | _ => (Thrown TypeError, w)
    end.

(** *** The functions of [Dapp], callees first *)

Definition initializeEthers : M unit :=
  writing (with_token
             (Val {| contract_at := contractAddress; contract_signer := 0 |})).

Definition getTokenData : M unit :=
  _ ← token_current;
  name ← await CallName token_name;
  _ ← token_current;
  symbol ← await CallSymbol token_symbol;
  setTokenData (Val {| name := name; symbol := symbol |}).

Definition updateBalance : M unit :=
  _ ← token_current;
  a ← reading myAddress;
  balance ← await (CallBalanceOf a) (token_balanceOf a);
  console_log "bal";;
  setBalance (Val balance).

Definition startPollingData : M unit :=
  id ← setInterval;
  writing (with_pollDataInterval (Val id));;
  spawn updateBalance.

Definition stopPollingData : M unit :=
  v ← reading pollDataInterval;
  clearInterval v;;
  writing (with_pollDataInterval Undefined).

Definition dismissTransactionError : M unit := setTransactionError Null.

Definition dismissNetworkError : M unit := setNetworkError Null.

(** The [return] in the [catch] block ends the function; nothing follows
    the [try] statement, so it is the same as leaving the block. *)
Definition transferTokens (to : Address) (amount : N) : M unit :=
  try_finally
    (try_catch
       (dismissTransactionError;;
        _ ← token_current;
        tx ← await (CallTransfer to amount) (token_transfer to amount);
        setTxBeingSent (Val (hash tx));;
        receipt ← await (CallWait tx) (tx_wait tx);
        (if decide (status receipt = 0%Z)
         then throw (Error "Transaction failed")
         else mret ());;
        updateBalance)
       (λ error,
          if decide (err_code error = Some ERROR_CODE_TX_REJECTED_BY_USER)
          then mret ()
          else console_error error;; setTransactionError (Val error)))
    (setTxBeingSent Null).

Definition getRpcErrorMessage (error : JsError) : string :=
  match err_data error with
  | Some message => message
  | None => err_message error
  end.

Definition resetState : M unit :=
  setTokenData Null;;
  setBalance Null;;
  setTxBeingSent Null;;
  setTransactionError Null;;
  setNetworkError Null.

Definition checkNetwork : M bool :=
  λ w,
    if decide (networkVersion (window w) = HARDHAT_NETWORK_ID)
    then (Ok true, w)
    else (setNetworkError (Val "Please connect Metamask to Localhost:8545");;
          mret false) w.

(** The three calls are made one after the other.  [getTokenData] is run to
    its end here, so the remote side is asked for the name, the symbol and
    then the balance; in the browser the balance is asked for between the
    name and the symbol.  Where a statement below depends on the replies of
    these reads it takes reads that leave the remote side as it is, for
    which the two orders agree. *)
Definition initialize (userAddress : JsVal Address) : M unit :=
  writing (with_myAddress userAddress);;
  spawn initializeEthers;;
  spawn getTokenData;;
  startPollingData.

(** The listener bodies of [connectWallet]. *)
Definition accountsChanged_listener (accounts : list Address) : M unit :=
  let newAddress := first_of accounts in
  stopPollingData;;
  match newAddress with
  | Undefined => resetState
  | _ => initialize newAddress
  end.

Definition networkChanged_listener (e : string) : M unit :=
  console_log e;;
  stopPollingData;;
  resetState.

Definition connectWallet : M unit :=
  accounts ← await CallEnable ethereum_enable;
  let myAddress := first_of accounts in
  ok ← checkNetwork;
  if negb ok then mret ()
  else
    initialize myAddress;;
    ethereum_on "accountsChanged" OnAccountsChanged;;
    ethereum_on "networkChanged" OnNetworkChanged.

(** The cleanup of the [useEffect] hook, run when the component unmounts. *)
Definition unmount : M unit := stopPollingData.

(** What [Dapp] returns when it renders.  The model is a page with an
    injected wallet ([window.ethereum] is what [Window] describes), so the
    [NoWalletDetected] branch is not taken.  A string is falsy when it is
    empty; the token data and the balance are objects. *)
Definition render (w : World B) : View :=
  let c := dapp w in
  if match myAddress c with Val a => bool_decide (a = "") | _ => true end
  then ConnectWalletView
  else if nullish (tokenData c) || nullish (balance c)
  then LoadingView
  else DappView.

(** *** What the page can be asked to do *)

(** A listener called with what the wallet emitted.  Each listener is
    registered under its own event name only, so the last case is never
    reached. *)
Definition deliver (ev : Event) (l : Listener) : M unit :=
  match l, ev with
  | OnAccountsChanged, AccountsChanged accounts =>
      accountsChanged_listener accounts
  | OnNetworkChanged, NetworkChanged id => networkChanged_listener id
  | _, _ => mret ()
  end.

Definition listeners_for (ev : string) (w : World B) : list Listener :=
  (filter (λ p, p.1 = ev) (listeners (window w))).*2.

Fixpoint call_all (ev : Event) (ls : list Listener) : M unit :=
  match ls with
  | [] => mret ()
  | l :: ls => deliver ev l;; call_all ev ls
  end.

(** The wallet emits [ev]: every listener registered under its name is
    called, in registration order. *)
Definition emit (ev : Event) : M unit :=
  λ w, call_all ev (listeners_for (event_name ev) w) w.

(** A change of network also changes [window.ethereum.networkVersion]. *)
Definition wallet_emits (ev : Event) : M unit :=
  match ev with
  | NetworkChanged id =>
      (λ w, (Ok (), on_window (with_networkVersion id) w));; emit ev
  | AccountsChanged _ => emit ev
  end.

(** A timer that is alive calls [() => updateBalance()]. *)
Definition timer_fires (id : nat) : M unit :=
  λ w,
    if decide (id ∈ intervals (window w))
    then spawn updateBalance w
    else (Ok (), w).

Inductive Action :=
| ClickConnect
| WalletEmits (ev : Event)
| TimerFires (id : nat)
| SubmitTransfer (to : Address) (amount : N)
| DismissTransactionError
| DismissNetworkError
| Unmount.

Definition act (a : Action) : M unit :=
  match a with
  | ClickConnect => spawn connectWallet
  | WalletEmits ev => wallet_emits ev
  | TimerFires id => timer_fires id
  | SubmitTransfer to amount => spawn (transferTokens to amount)
  | DismissTransactionError => dismissTransactionError
  | DismissNetworkError => dismissNetworkError
  | Unmount => unmount
  end.

Definition step (w : World B) (a : Action) : World B := exec (act a) w.

Definition run (acts : list Action) (w : World B) : World B :=
  foldl step w acts.

(** *** The balance poller on its own *)

Inductive PollerOp :=
| Start
| Stop
| Fire (id : nat).

Definition poller_act (o : PollerOp) : M unit :=
  match o with
  | Start => startPollingData
  | Stop => stopPollingData
  | Fire id => timer_fires id
  end.

Definition poller_run (ops : list PollerOp) (w : World B) : World B :=
  foldl (λ w o, exec (poller_act o) w) w ops.

(** The number of interval timers that are alive. *)
Definition live_timers (w : World B) : nat := size (intervals (window w)).

(** [start] is only ever issued while no timer is tracked. *)
Fixpoint stops_before_starts (running : bool) (ops : list PollerOp) : bool :=
  match ops with
  | [] => true
  | Start :: ops => negb running && stops_before_starts true ops
  | Stop :: ops => stops_before_starts false ops
  | Fire _ :: ops => stops_before_starts running ops
  end.

(** The timer [pollDataInterval.current] refers to, if any. *)
Definition tracked (w : World B) : gset nat :=
  match pollDataInterval (dapp w) with
  | Val id => {[id]}
  | _ => ∅
  end.

(** While the poller runs at most the tracked timer is alive; while it is
    stopped none is. *)
Definition poller_ok (running : bool) (w : World B) : Prop :=
  if running then intervals (window w) ⊆ tracked w
  else intervals (window w) = ∅.

(** *** Connect calls that get through *)

(** What one [connectWallet] that reaches its end hands to the wallet. *)
Definition registered : list (string * Listener) :=
  [("accountsChanged", OnAccountsChanged);
   ("networkChanged", OnNetworkChanged)].

(** The account request resolves and the network is the accepted one. *)
Definition connect_succeeds (w : World B) : bool :=
  match (ethereum_enable (remote w)).1 with
  | Resolved _ =>
      bool_decide (networkVersion (window w) = HARDHAT_NETWORK_ID)
  | _ => false
  end.

(** How many of the connect clicks in [acts] succeed when the page runs
    [acts] from [w]. *)
Fixpoint successful_connects (acts : list Action) (w : World B) : nat :=
  match acts with
  | [] => 0
  | a :: acts =>
      (match a with
       | ClickConnect => if connect_succeeds w then 1 else 0
       | _ => 0
       end) + successful_connects acts (step w a)
  end.
End Dapp.

Arguments M B : clear implicits.

(** ** Two remote sides to run the page against *)

(** A remote side that answers from a script: every method has a queue of
    replies and a call takes the next one; a call on an empty queue never
    settles. *)
Record Script := {
  enable_replies : list (Reply (list Address));
  name_replies : list (Reply string);
  symbol_replies : list (Reply string);
  balanceOf_replies : list (Reply N);
  transfer_replies : list (Reply TransactionResponse);
  wait_replies : list (Reply Receipt)
}.

Definition next_reply {A} (q : list (Reply A)) : Reply A * list (Reply A) :=
  match q with
  | [] => (Unsettled, [])
  | r :: q => (r, q)
  end.

#[export] Instance script_remote : Remote Script := {|
  contractAddress := "0x5FbDB2315678afecb367f032d93F642f64180aa3";
  ethereum_enable s :=
    let '(r, q) := next_reply (enable_replies s) in
    (r, {| enable_replies := q; name_replies := name_replies s;
           symbol_replies := symbol_replies s;
           balanceOf_replies := balanceOf_replies s;
           transfer_replies := transfer_replies s;
           wait_replies := wait_replies s |});
  token_name s :=
    let '(r, q) := next_reply (name_replies s) in
    (r, {| enable_replies := enable_replies s; name_replies := q;
           symbol_replies := symbol_replies s;
           balanceOf_replies := balanceOf_replies s;
           transfer_replies := transfer_replies s;
           wait_replies := wait_replies s |});
  token_symbol s :=
    let '(r, q) := next_reply (symbol_replies s) in
    (r, {| enable_replies := enable_replies s; name_replies := name_replies s;
           symbol_replies := q;
           balanceOf_replies := balanceOf_replies s;
           transfer_replies := transfer_replies s;
           wait_replies := wait_replies s |});
  token_balanceOf _ s :=
    let '(r, q) := next_reply (balanceOf_replies s) in
    (r, {| enable_replies := enable_replies s; name_replies := name_replies s;
           symbol_replies := symbol_replies s;
           balanceOf_replies := q;
           transfer_replies := transfer_replies s;
           wait_replies := wait_replies s |});
  token_transfer _ _ s :=
    let '(r, q) := next_reply (transfer_replies s) in
    (r, {| enable_replies := enable_replies s; name_replies := name_replies s;
           symbol_replies := symbol_replies s;
           balanceOf_replies := balanceOf_replies s;
           transfer_replies := q;
           wait_replies := wait_replies s |});
  tx_wait _ s :=
    let '(r, q) := next_reply (wait_replies s) in
    (r, {| enable_replies := enable_replies s; name_replies := name_replies s;
           symbol_replies := symbol_replies s;
           balanceOf_replies := balanceOf_replies s;
           transfer_replies := transfer_replies s;
           wait_replies := q |})
|}.

(** The script in which nothing ever answers. *)
Definition silence : Script :=
  {| enable_replies := []; name_replies := []; symbol_replies := [];
     balanceOf_replies := []; transfer_replies := []; wait_replies := [] |}.

(** Modelled from the spec: the token contract (contracts/Token.sol) and the
    node that mines its transactions are not among the sources.  The spec
    gives the contract client [readName], [readSymbol], [readBalance] and
    [transfer]; [transfer] returns a handle with the transaction hash at
    once; the receipt of a mined transaction has status 1 on success and 0 on
    revert; a confirmed transfer lowers the sender's balance by the amount.
    The wallet signs as its first account and never refuses. *)
Record Ledger := {
  wallet_accounts : list Address;
  token_info : TokenData;
  balances : gmap Address N;
  mempool : list (string * (Address * N))
}.

Definition balance_of (l : Ledger) (a : Address) : N :=
  default 0%N (balances l !! a).

Definition ledger_submit (to : Address) (amount : N) (l : Ledger)
  : Reply TransactionResponse * Ledger :=
  match wallet_accounts l with
  | [] => (Rejected (Error "unknown account #0"), l)
  | _ :: _ =>
      let h := "0xtx" +:+ pretty (length (mempool l)) in
      (Resolved {| hash := h |},
       {| wallet_accounts := wallet_accounts l; token_info := token_info l;
          balances := balances l;
          mempool := mempool l ++ [(h, (to, amount))] |})
  end.

Definition ledger_mine (tx : TransactionResponse) (l : Ledger)
  : Reply Receipt * Ledger :=
  match wallet_accounts l, list_find (λ p, p.1 = hash tx) (mempool l) with
  | sender :: _, Some (_, (_, (to, amount))) =>
      if decide (amount ≤ balance_of l sender)%N
      then
        let debited := <[sender := (balance_of l sender - amount)%N]> (balances l) in
        let credited :=
          <[to := (default 0%N (debited !! to) + amount)%N]> debited in
        (Resolved {| status := 1 |},
         {| wallet_accounts := wallet_accounts l; token_info := token_info l;
            balances := credited; mempool := mempool l |})
      else (Resolved {| status := 0 |}, l)
  | _, _ => (Unsettled, l)
  end.

#[export] Instance ledger_remote : Remote Ledger := {|
  contractAddress := "0x5FbDB2315678afecb367f032d93F642f64180aa3";
  ethereum_enable l := (Resolved (wallet_accounts l), l);
  token_name l := (Resolved (name (token_info l)), l);
  token_symbol l := (Resolved (symbol (token_info l)), l);
  token_balanceOf a l :=
    match a with
    | Val a => (Resolved (balance_of l a), l)
    | _ => (Rejected (Error "invalid address"), l)
    end;
  token_transfer := ledger_submit;
  tx_wait := ledger_mine
|}.

(** *** Concrete pages used below *)

(** The account [0xAA] holds 100 Foo. *)
Definition foo_ledger : Ledger :=
  {| wallet_accounts := ["0xAA"];
     token_info := {| name := "Foo"; symbol := "FOO" |};
     balances := {[ "0xAA" := 100%N ]};
     mempool := [] |}.

(** The page after [0xAA] connected on the accepted network. *)
Definition foo_connected : World Ledger :=
  run [ClickConnect] (initial_world HARDHAT_NETWORK_ID foo_ledger).

(** What a wallet answers when the user declines (EIP-1193 code 4001). *)
Definition user_rejected : JsError :=
  {| err_code := Some 4001%Z;
     err_message := "MetaMask Tx Signature: User denied transaction signature.";
     err_data := None |}.

(** What ethers answers when the node cannot be reached. *)
Definition rpc_error : JsError :=
  {| err_code := Some (-32603)%Z;
     err_message := "Internal JSON-RPC error.";
     err_data := Some "could not detect network" |}.

(** [0xAA] connects and the first balance read gives 100; the second read
    fails, the third gives 100 again.  One transfer is accepted and mined
    with status 1. *)
Definition flaky_script : Script :=
  {| enable_replies := [Resolved ["0xAA"]];
     name_replies := [Resolved "Foo"];
     symbol_replies := [Resolved "FOO"];
     balanceOf_replies := [Resolved 100%N; Rejected rpc_error; Resolved 100%N];
     transfer_replies := [Resolved {| hash := "0xabc" |}];
     wait_replies := [Resolved {| status := 1 |}] |}.

Definition flaky_connected : World Script :=
  run [ClickConnect] (initial_world HARDHAT_NETWORK_ID flaky_script).

(** [0xAA] connects; the user then declines to sign a transfer. *)
Definition declining_script : Script :=
  {| enable_replies := [Resolved ["0xAA"]];
     name_replies := [Resolved "Foo"];
     symbol_replies := [Resolved "FOO"];
     balanceOf_replies := [Resolved 100%N];
     transfer_replies := [Rejected user_rejected];
     wait_replies := [] |}.

Definition declining_connected : World Script :=
  run [ClickConnect] (initial_world HARDHAT_NETWORK_ID declining_script).

(** The user declines the account request, on Ethereum mainnet. *)
Definition refused_on_mainnet : World Script :=
  initial_world "1"
    {| enable_replies := [Rejected user_rejected]; name_replies := [];
       symbol_replies := []; balanceOf_replies := [];
       transfer_replies := []; wait_replies := [] |}.

(** [0xAA] offers its account on Ethereum mainnet. *)
Definition offered_on_mainnet : World Script :=
  initial_world "1"
    {| enable_replies := [Resolved ["0xAA"]]; name_replies := [];
       symbol_replies := []; balanceOf_replies := [];
       transfer_replies := []; wait_replies := [] |}.

(** ** What the page displays *)

(** The dapp screen of [Dapp]'s last [return]: the heading, the welcome
    line, and the four conditional parts, each with the prop it is given. *)
Record DappScreen := {
  heading : string;
  welcome : string;
  waiting_for : option string;
  error_message : option string;
  no_tokens_for : option Address;
  transfer_form : option string
}.

Inductive Page :=
| ConnectWalletPage (networkError : JsVal string)
| LoadingPage
| DappPage (s : DappScreen).

(** [balance.toString()]: the decimal digits. *)
Definition toString (n : N) : string := pretty n.

(** The body of [Dapp] after the hooks: what it returns for the current
    cells, on a page with an injected wallet.  [balance.eq(0)] and
    [balance.gt(0)] choose between the no-tokens message and the transfer
    form; [x && <C />] renders [C] when [x] is truthy, and an empty string
    is falsy. *)
Definition render_page {B} (w : World B) : Page :=
  let c := dapp w in
  match myAddress c with
  | Val a =>
      if bool_decide (a = "") then ConnectWalletPage (networkError c)
      else
        match tokenData c, balance c with
        | Val td, Val bal =>
            DappPage
              {| heading := name td +:+ " (" +:+ symbol td +:+ ")";
                 welcome :=
                   "Welcome " +:+ a +:+ ", you have " +:+ toString bal
                   +:+ " " +:+ symbol td +:+ ".";
                 waiting_for :=
                   match txBeingSent c with
                   | Val h => if bool_decide (h = "") then None else Some h
                   | _ => None
                   end;
                 error_message :=
                   match transactionError c with
                   | Val e => Some (getRpcErrorMessage e)
                   | _ => None
                   end;
                 no_tokens_for := if (bal =? 0)%N then Some a else None;
                 transfer_form :=
                   if (0 <? bal)%N then Some (symbol td) else None |}
        | _, _ => LoadingPage
        end
  | _ => ConnectWalletPage (networkError c)
  end.

(** The contract object [initializeEthers] builds. *)
Definition the_contract `{Remote B} : Contract :=
  {| contract_at := contractAddress; contract_signer := 0 |}.

(** [0xAA] connects; the node then refuses a transfer before it is sent. *)
Definition refusing_script : Script :=
  {| enable_replies := [Resolved ["0xAA"]];
     name_replies := [Resolved "Foo"];
     symbol_replies := [Resolved "FOO"];
     balanceOf_replies := [Resolved 100%N];
     transfer_replies := [Rejected rpc_error];
     wait_replies := [] |}.

Definition refusing_connected : World Script :=
  run [ClickConnect] (initial_world HARDHAT_NETWORK_ID refusing_script).

(** [0xAA] connects; a transfer is sent and never mined. *)
Definition stalling_script : Script :=
  {| enable_replies := [Resolved ["0xAA"]];
     name_replies := [Resolved "Foo"];
     symbol_replies := [Resolved "FOO"];
     balanceOf_replies := [Resolved 100%N];
     transfer_replies := [Resolved {| hash := "0xabc" |}];
     wait_replies := [] |}.

Definition stalling_connected : World Script :=
  run [ClickConnect] (initial_world HARDHAT_NETWORK_ID stalling_script).

(** [0xAA] connects; a transfer is sent and its receipt has status 0. *)
Definition reverting_script : Script :=
  {| enable_replies := [Resolved ["0xAA"]];
     name_replies := [Resolved "Foo"];
     symbol_replies := [Resolved "FOO"];
     balanceOf_replies := [Resolved 100%N];
     transfer_replies := [Resolved {| hash := "0xabc" |}];
     wait_replies := [Resolved {| status := 0 |}] |}.

Definition reverting_connected : World Script :=
  run [ClickConnect] (initial_world HARDHAT_NETWORK_ID reverting_script).

(** The wallet offers no account; the reads would answer. *)
Definition no_account_script : Script :=
  {| enable_replies := [Resolved []];
     name_replies := [Resolved "Foo"];
     symbol_replies := [Resolved "FOO"];
     balanceOf_replies := [Rejected (Error "invalid address")];
     transfer_replies := []; wait_replies := [] |}.

(** [0xAA] connects, but the token's name cannot be read. *)
Definition nameless_script : Script :=
  {| enable_replies := [Resolved ["0xAA"]];
     name_replies := [Rejected rpc_error];
     symbol_replies := [Resolved "FOO"];
     balanceOf_replies := [Resolved 100%N];
     transfer_replies := []; wait_replies := [] |}.

(** A remote side whose answers never change, whatever it was asked
    before: the wallet's accounts and the three reads; it accepts no
    transfer. *)
Record Steady := {
  steady_accounts : Reply (list Address);
  steady_name : Reply string;
  steady_symbol : Reply string;
  steady_balance : Reply N
}.

#[export] Instance steady_remote : Remote Steady := {|
  contractAddress := "0x5FbDB2315678afecb367f032d93F642f64180aa3";
  ethereum_enable s := (steady_accounts s, s);
  token_name s := (steady_name s, s);
  token_symbol s := (steady_symbol s, s);
  token_balanceOf _ s := (steady_balance s, s);
  token_transfer _ _ s := (Unsettled, s);
  tx_wait _ s := (Unsettled, s)
|}.

(** The page of [0xAA] with its 100 Foo, on a node that has since stopped
    answering balance reads. *)
Definition balance_offline : World Steady :=
  {| dapp := dapp foo_connected;
     window := window foo_connected;
     calls := calls foo_connected;
     remote := {| steady_accounts := Resolved ["0xAA"];
                  steady_name := Resolved "Foo";
                  steady_symbol := Resolved "FOO";
                  steady_balance := Rejected rpc_error |} |}.

(** [0xAA] connects; a transfer is sent and the node is lost while waiting
    for it. *)
Definition dropping_script : Script :=
  {| enable_replies := [Resolved ["0xAA"]];
     name_replies := [Resolved "Foo"];
     symbol_replies := [Resolved "FOO"];
     balanceOf_replies := [Resolved 100%N];
     transfer_replies := [Resolved {| hash := "0xabc" |}];
     wait_replies := [Rejected rpc_error] |}.

Definition dropping_connected : World Script :=
  run [ClickConnect] (initial_world HARDHAT_NETWORK_ID dropping_script).

(** * Properties *)

(** Unfolds the functions of the component down to the primitives. *)
Ltac unfold_dapp :=
  unfold exec, connectWallet, accountsChanged_listener,
    networkChanged_listener, unmount, timer_fires, initialize,
    transferTokens, startPollingData, stopPollingData, getTokenData,
    updateBalance, resetState, checkNetwork, initializeEthers,
    dismissTransactionError, dismissNetworkError, setTokenData, setBalance,
    setTxBeingSent, setTransactionError, setNetworkError, console_log,
    console_error, setInterval, clearInterval, ethereum_on, token_current,
    try_finally, try_catch, await, spawn, throw, reading, writing, mbind,
    M_bind, mret, M_ret in *.

Section Properties.
Context {B : Type} {remote_side : Remote B}.
Implicit Types (w : World B) (c : Contract) (e : JsError).

(** *** Transfers *)

(** C4.  A call of [transferTokens] whose [transfer] is rejected with code
    4001 returns silently: the call settles normally, [transactionError]
    and [txBeingSent] hold [null] afterwards, and nothing else on the page
    changes: the network error is as before and nothing is written to the
    console. *)
Theorem transfer_rejected_by_user w c to amount e b :
  token (dapp w) = Val c →
  token_transfer to amount (remote w) = (Rejected e, b) →
  err_code e = Some ERROR_CODE_TX_REJECTED_BY_USER →
  (transferTokens to amount w).1 = Ok ()
  ∧ transactionError (dapp (exec (transferTokens to amount) w)) = Null
  ∧ txBeingSent (dapp (exec (transferTokens to amount) w)) = Null
  ∧ networkError (dapp (exec (transferTokens to amount) w))
    = networkError (dapp w)
  ∧ window (exec (transferTokens to amount) w) = window w.
Proof.
  intros Htok Hsub Hcode. unfold_dapp. simpl. rewrite Htok. simpl.
  rewrite Hsub. simpl. rewrite decide_True by done. simpl. done.
Qed.

(** [transferTokens] catches whatever its body throws: its promise never
    rejects. *)
Lemma transferTokens_never_throws w to amount e :
  (transferTokens to amount w).1 ≠ Thrown e.
Proof.
  unfold_dapp. simpl. repeat (case_match; simplify_eq/=); done.
Qed.

(** C6.  Whenever a call of [transferTokens] settles, on whichever path,
    [txBeingSent] holds [null]. *)
Theorem pending_hash_cleared w to amount :
  settled (transferTokens to amount w).1 = true →
  txBeingSent (dapp (exec (transferTokens to amount) w)) = Null.
Proof.
  unfold_dapp. simpl.
  repeat (case_match; simplify_eq/=); done.
Qed.

(** C5 (amended).  For a submitted transfer whose receipt has status 0,
    [transactionError] becomes [Error("Transaction failed")] and
    [txBeingSent] is cleared.  A receipt with any other status, 1 in
    particular, raises nothing by itself and the balance is read again;
    [transactionError] then stays cleared unless that read rejects, in
    which case the rejection becomes the transaction error (or is dropped
    when its code is 4001). *)
Theorem receipt_classification w c to amount tx b1 receipt b2 :
  token (dapp w) = Val c →
  token_transfer to amount (remote w) = (Resolved tx, b1) →
  tx_wait tx b1 = (Resolved receipt, b2) →
  let w' := exec (transferTokens to amount) w in
  if decide (status receipt = 0%Z)
  then transactionError (dapp w') = Val (Error "Transaction failed")
       ∧ txBeingSent (dapp w') = Null
  else match (token_balanceOf (myAddress (dapp w)) b2).1 with
       | Resolved _ =>
           transactionError (dapp w') = Null
           ∧ txBeingSent (dapp w') = Null
       | Rejected e =>
           transactionError (dapp w')
           = (if decide (err_code e = Some ERROR_CODE_TX_REJECTED_BY_USER)
              then Null else Val e)
           ∧ txBeingSent (dapp w') = Null
       | Unsettled =>
           transactionError (dapp w') = Null
           ∧ txBeingSent (dapp w') = Val (hash tx)
       end.
Proof.
  intros Htok Hsub Hwait. unfold_dapp. simpl. rewrite Htok. simpl.
  rewrite Hsub. simpl. rewrite Hwait. simpl.
  destruct (decide (status receipt = 0%Z)); simpl; [done|].
  rewrite Htok. simpl.
  destruct (token_balanceOf _ _) as [[bal|e|] b3]; simpl; try done.
  destruct (decide _); done.
Qed.

(** C8.  When a transfer is mined with status 1, the same call reads the
    balance of the connected address again right after the receipt, before
    it settles; when that read answers, the call ends with the balance it
    returned, [txBeingSent] cleared and no transaction error. *)
Theorem confirmed_transfer_refreshes w c to amount tx b1 receipt b2 :
  token (dapp w) = Val c →
  token_transfer to amount (remote w) = (Resolved tx, b1) →
  tx_wait tx b1 = (Resolved receipt, b2) →
  status receipt = 1%Z →
  let w' := exec (transferTokens to amount) w in
  calls w'
  = calls w ++ [CallTransfer to amount; CallWait tx;
                CallBalanceOf (myAddress (dapp w))]
  ∧ ∀ bal b3,
      token_balanceOf (myAddress (dapp w)) b2 = (Resolved bal, b3) →
      (transferTokens to amount w).1 = Ok ()
      ∧ balance (dapp w') = Val bal
      ∧ txBeingSent (dapp w') = Null
      ∧ transactionError (dapp w') = Null
      ∧ remote w' = b3.
Proof.
  intros Htok Hsub Hwait Hst. unfold_dapp. simpl. rewrite Htok. simpl.
  rewrite Hsub. simpl. rewrite Hwait. simpl. rewrite Hst. simpl.
  rewrite Htok. simpl. split.
  - destruct (token_balanceOf _ _) as [[bal|e|] b3]; simpl;
      try destruct (decide _); simpl; by rewrite <- !app_assoc.
  - intros bal b3 Hbal. rewrite Hbal. done.
Qed.

(** *** Teardown and connection *)

(** C9 (amended).  The cleanup run on unmount stops the tracked timer: it is
    cleared and the handle forgotten, so no timer is left when the tracked
    one was the only one alive.  It changes nothing else: the contract, the
    address, the token data, the balance, the pending hash and both errors
    are as before, and so is the rest of the page. *)
Theorem unmount_only_stops_poller w :
  let w' := exec unmount w in
  (unmount w).1 = Ok ()
  ∧ pollDataInterval (dapp w') = Undefined
  ∧ intervals (window w') = intervals (window w) ∖ tracked w
  ∧ (intervals (window w) ⊆ tracked w → intervals (window w') = ∅)
  ∧ token (dapp w') = token (dapp w)
  ∧ myAddress (dapp w') = myAddress (dapp w)
  ∧ tokenData (dapp w') = tokenData (dapp w)
  ∧ balance (dapp w') = balance (dapp w)
  ∧ txBeingSent (dapp w') = txBeingSent (dapp w)
  ∧ transactionError (dapp w') = transactionError (dapp w)
  ∧ networkError (dapp w') = networkError (dapp w)
  ∧ networkVersion (window w') = networkVersion (window w)
  ∧ listeners (window w') = listeners (window w)
  ∧ console (window w') = console (window w)
  ∧ unhandled (window w') = unhandled (window w)
  ∧ calls w' = calls w
  ∧ remote w' = remote w.
Proof.
  unfold tracked. unfold_dapp. simpl.
  destruct (pollDataInterval (dapp w)); simpl;
    (split; [done|split; [done|split; [set_solver|split; [set_solver|done]]]]).
Qed.

(** C7 (amended).  On a network other than 31337, [connectWallet] never
    sets up the contract, fetches token data, starts the poller or
    registers a listener: it only asks the wallet for the accounts.  When
    that request succeeds it sets the network error message and returns,
    and nothing else changes. *)
Theorem wrong_network_connect w :
  networkVersion (window w) ≠ HARDHAT_NETWORK_ID →
  let w' := exec connectWallet w in
  (token (dapp w') = token (dapp w)
   ∧ myAddress (dapp w') = myAddress (dapp w)
   ∧ tokenData (dapp w') = tokenData (dapp w)
   ∧ balance (dapp w') = balance (dapp w)
   ∧ pollDataInterval (dapp w') = pollDataInterval (dapp w)
   ∧ intervals (window w') = intervals (window w)
   ∧ listeners (window w') = listeners (window w)
   ∧ calls w' = calls w ++ [CallEnable])
  ∧ ∀ accounts b,
      ethereum_enable (remote w) = (Resolved accounts, b) →
      connectWallet w
      = (Ok (),
         on_dapp
           (with_networkError
              (Val "Please connect Metamask to Localhost:8545"))
           (called CallEnable b w)).
Proof.
  intros Hnet. unfold_dapp. simpl. split.
  - destruct (ethereum_enable (remote w)) as [[accounts|e|] b]; simpl;
      rewrite ?decide_False by done; done.
  - intros accounts b ->. simpl. rewrite decide_False by done. done.
Qed.

(** *** The poller *)

(** C2 (amended).  When a live timer fires and the balance read it makes
    is rejected, the timer stays alive and tracked, so the schedule goes
    on: the next firing reads again and stores what it gets.  The failure
    is not surfaced: no cell of the component changes, nothing is logged,
    and the rejection is left unhandled. *)
Theorem failed_poll_read w id c e b :
  id ∈ intervals (window w) →
  token (dapp w) = Val c →
  token_balanceOf (myAddress (dapp w)) (remote w) = (Rejected e, b) →
  let w' := exec (timer_fires id) w in
  intervals (window w') = intervals (window w)
  ∧ pollDataInterval (dapp w') = pollDataInterval (dapp w)
  ∧ dapp w' = dapp w
  ∧ console (window w') = console (window w)
  ∧ unhandled (window w') = unhandled (window w) ++ [e]
  ∧ ∀ bal b',
      token_balanceOf (myAddress (dapp w)) b = (Resolved bal, b') →
      balance (dapp (exec (timer_fires id) w')) = Val bal.
Proof.
  intros Hid Htok Hbal. unfold_dapp. simpl.
  rewrite decide_True by done. rewrite Htok. simpl. rewrite Hbal. simpl.
  repeat split; try done.
  intros bal b' Hbal'. rewrite decide_True by done. rewrite Htok. simpl.
  rewrite Hbal'. done.
Qed.

(** *** The poller's timers *)

Lemma updateBalance_keeps_timers w :
  intervals (window (exec (spawn updateBalance) w)) = intervals (window w)
  ∧ pollDataInterval (dapp (exec (spawn updateBalance) w))
    = pollDataInterval (dapp w).
Proof. unfold_dapp. simpl. repeat (case_match; simplify_eq/=); done. Qed.

Lemma startPollingData_timers w :
  intervals (window (exec startPollingData w))
  = {[next_interval (window w)]} ∪ intervals (window w)
  ∧ pollDataInterval (dapp (exec startPollingData w))
    = Val (next_interval (window w)).
Proof. unfold_dapp. simpl. repeat (case_match; simplify_eq/=); done. Qed.

Lemma stopPollingData_timers w :
  intervals (window (exec stopPollingData w))
  = intervals (window w) ∖ tracked w
  ∧ pollDataInterval (dapp (exec stopPollingData w)) = Undefined.
Proof.
  unfold tracked. unfold_dapp. simpl.
  destruct (pollDataInterval (dapp w)); simpl; split; set_solver.
Qed.

Lemma timer_fires_timers id w :
  intervals (window (exec (timer_fires id) w)) = intervals (window w)
  ∧ pollDataInterval (dapp (exec (timer_fires id) w))
    = pollDataInterval (dapp w).
Proof.
  unfold timer_fires, exec. case_decide; [|done].
  apply updateBalance_keeps_timers.
Qed.

Lemma poller_ok_one running w : poller_ok running w → live_timers w ≤ 1.
Proof.
  unfold poller_ok, live_timers, tracked. destruct running.
  - intros Hsub. destruct (pollDataInterval (dapp w)) as [| |id].
    + apply subseteq_size in Hsub. rewrite size_empty in Hsub. lia.
    + apply subseteq_size in Hsub. rewrite size_empty in Hsub. lia.
    + apply subseteq_size in Hsub. rewrite size_singleton in Hsub. lia.
  - intros ->. rewrite size_empty. lia.
Qed.

Lemma poller_run_ok pre : ∀ suf running w,
  poller_ok running w →
  stops_before_starts running (pre ++ suf) = true →
  live_timers (poller_run pre w) ≤ 1.
Proof.
  induction pre as [|o pre IH]; intros suf running w Hok Hops.
  - by eapply poller_ok_one.
  - simpl in *. destruct o as [| |id].
    + apply andb_prop in Hops as [Hrun Hops].
      destruct running; [done|]. eapply IH; [|done].
      unfold poller_ok, tracked in *. simpl.
      destruct (startPollingData_timers w) as [-> ->]. set_solver.
    + eapply IH; [|done]. unfold poller_ok in *. simpl.
      destruct (stopPollingData_timers w) as [-> _].
      destruct running; set_solver.
    + eapply IH; [|done]. unfold poller_ok, tracked in *. simpl.
      destruct (timer_fires_timers id w) as [-> ->]. done.
Qed.

(** C1 (amended).  [startPollingData] creates a timer and stops none: the
    timers alive before it are still alive after it.  So the poller has at
    most one live timer at every instant of a run provided it starts with
    none and every start is issued while it is stopped, as the listener
    for account changes does by stopping first. *)
Theorem one_timer_when_stopped_first w :
  intervals (window (exec startPollingData w))
  = {[next_interval (window w)]} ∪ intervals (window w)
  ∧ ∀ pre suf,
      intervals (window w) = ∅ →
      stops_before_starts false (pre ++ suf) = true →
      live_timers (poller_run pre w) ≤ 1.
Proof.
  split; [apply startPollingData_timers|].
  intros pre suf Hnone Hops. by eapply (poller_run_ok pre suf false).
Qed.

(** *** The listeners on the wallet *)

Lemma connectWallet_listeners w :
  listeners (window (exec connectWallet w))
  = listeners (window w) ++ (if connect_succeeds w then registered else []).
Proof.
  unfold connect_succeeds, registered. unfold_dapp. simpl.
  destruct (ethereum_enable (remote w)) as [[accounts|e|] b]; simpl;
    rewrite ?app_nil_r; try done.
  case_bool_decide as Hnet.
  - rewrite decide_True by done. simpl.
    repeat (case_match; simplify_eq/=); by rewrite <- app_assoc.
  - rewrite decide_False by done. simpl. by rewrite app_nil_r.
Qed.

Lemma spawn_listeners (m : M B unit) w :
  listeners (window (exec (spawn m) w)) = listeners (window (exec m w)).
Proof. unfold exec, spawn. by destruct (m w) as [[?|?|] ?]. Qed.

Lemma deliver_listeners ev l w :
  (deliver ev l w).1 = Ok ()
  ∧ listeners (window (exec (deliver ev l) w)) = listeners (window w).
Proof.
  destruct l, ev; unfold deliver; try done; unfold_dapp; simpl;
    repeat (case_match; simplify_eq/=); done.
Qed.

Lemma call_all_listeners ev ls : ∀ w,
  (call_all ev ls w).1 = Ok ()
  ∧ listeners (window (exec (call_all ev ls) w)) = listeners (window w).
Proof.
  induction ls as [|l ls IH]; intros w; [done|].
  destruct (deliver_listeners ev l w) as [Hok Hkeep].
  unfold exec in *. simpl. unfold mbind, M_bind.
  destruct (deliver ev l w) as [r w1]. simpl in *. subst r.
  destruct (IH w1) as [-> ->]. done.
Qed.

Lemma step_listeners w a :
  listeners (window (step w a))
  = listeners (window w)
    ++ match a with
       | ClickConnect => if connect_succeeds w then registered else []
       | _ => []
       end.
Proof.
  destruct a as [|ev|id|to amount| | |]; unfold step, act.
  - rewrite spawn_listeners. apply connectWallet_listeners.
  - rewrite app_nil_r. destruct ev as [accounts|net]; unfold wallet_emits.
    + apply call_all_listeners.
    + unfold exec, emit, mbind, M_bind. simpl.
      etrans; [apply (call_all_listeners (NetworkChanged net))|done].
  - rewrite app_nil_r. unfold timer_fires, exec. case_decide; [|done].
    unfold_dapp. simpl. repeat (case_match; simplify_eq/=); done.
  - rewrite app_nil_r. unfold_dapp. simpl.
    repeat (case_match; simplify_eq/=); done.
  - by rewrite app_nil_r.
  - by rewrite app_nil_r.
  - rewrite app_nil_r. unfold_dapp. simpl.
    repeat (case_match; simplify_eq/=); done.
Qed.

Lemma run_listeners acts : ∀ w,
  listeners (window (run acts w))
  = listeners (window w)
    ++ mjoin (replicate (successful_connects acts w) registered).
Proof.
  unfold run. induction acts as [|a acts IH]; intros w; simpl.
  - by rewrite app_nil_r.
  - rewrite IH, step_listeners, <- app_assoc. f_equal.
    rewrite replicate_add, join_app. f_equal.
    destruct a; try done. by destruct (connect_succeeds w).
Qed.

Lemma registered_for_accountsChanged n w :
  listeners (window w) = mjoin (replicate n registered) →
  listeners_for "accountsChanged" w = replicate n OnAccountsChanged.
Proof.
  unfold listeners_for. intros ->.
  induction n as [|n IH]; [done|].
  change (mjoin (replicate (S n) registered))
    with (registered ++ mjoin (replicate n registered)).
  by rewrite filter_app, fmap_app, IH.
Qed.

Lemma registered_for_networkChanged n w :
  listeners (window w) = mjoin (replicate n registered) →
  listeners_for "networkChanged" w = replicate n OnNetworkChanged.
Proof.
  unfold listeners_for. intros ->.
  induction n as [|n IH]; [done|].
  change (mjoin (replicate (S n) registered))
    with (registered ++ mjoin (replicate n registered)).
  by rewrite filter_app, fmap_app, IH.
Qed.

Lemma networkChanged_logs id n : ∀ w,
  console (window (exec (call_all (NetworkChanged id)
                           (replicate n OnNetworkChanged)) w))
  = console (window w) ++ replicate n (LogText id).
Proof.
  induction n as [|n IH]; intros w.
  - simpl. by rewrite app_nil_r.
  - unfold exec in *. cbn [replicate call_all]. unfold mbind, M_bind.
    destruct (deliver (NetworkChanged id) OnNetworkChanged w) as [r w1] eqn:E.
    assert (r = Ok () ∧ console (window w1) = console (window w) ++ [LogText id])
      as [-> Hc].
    { revert E. unfold deliver. unfold_dapp. simpl.
      destruct (pollDataInterval (dapp w)); simpl; intros [= <- <-]; done. }
    rewrite IH, Hc, <- app_assoc. done.
Qed.

(** C10.  A call of [connectWallet] that succeeds on the accepted network
    appends one listener for account changes and one for network changes
    to those the wallet already has, and nothing ever removes a listener.
    So on a page where [n] connect calls have succeeded, an account change
    calls the account listener [n] times and a network change calls the
    network listener [n] times, each call logging the new network id. *)
Theorem connects_accumulate_listeners net (b : B) acts :
  let w := run acts (initial_world net b) in
  let n := successful_connects acts (initial_world net b) in
  (∀ w1,
     connect_succeeds w1 = true →
     listeners (window (exec connectWallet w1))
     = listeners (window w1) ++ registered)
  ∧ listeners_for "accountsChanged" w = replicate n OnAccountsChanged
  ∧ listeners_for "networkChanged" w = replicate n OnNetworkChanged
  ∧ (∀ accounts,
       wallet_emits (AccountsChanged accounts) w
       = call_all (AccountsChanged accounts)
           (replicate n OnAccountsChanged) w)
  ∧ (∀ id,
       wallet_emits (NetworkChanged id) w
       = call_all (NetworkChanged id) (replicate n OnNetworkChanged)
           (on_window (with_networkVersion id) w))
  ∧ (∀ id,
       console (window (exec (wallet_emits (NetworkChanged id)) w))
       = console (window w) ++ replicate n (LogText id)).
Proof.
  intros w n.
  assert (listeners (window w) = mjoin (replicate n registered)) as Hall.
  { unfold w, n. by rewrite run_listeners. }
  pose proof (registered_for_accountsChanged n w Hall) as Hacc.
  pose proof (registered_for_networkChanged n w Hall) as Hnet.
  assert (∀ id,
    wallet_emits (NetworkChanged id) w
    = call_all (NetworkChanged id) (replicate n OnNetworkChanged)
        (on_window (with_networkVersion id) w)) as Hemit.
  { intros id. unfold wallet_emits, emit, mbind, M_bind. simpl.
    unfold listeners_for in *. simpl. by rewrite Hnet. }
  split; [|split; [done|split; [done|split; [|split; [done|]]]]].
  - intros w1 Hok. by rewrite connectWallet_listeners, Hok.
  - intros accounts. unfold wallet_emits, emit. simpl. by rewrite Hacc.
  - intros id. unfold exec. rewrite Hemit.
    apply (networkChanged_logs id n (on_window (with_networkVersion id) w)).
Qed.

(** *** Reset *)

(** [resetState] writes [null] into the five state cells and leaves the
    three refs as they are. *)
Lemma resetState_effect w :
  resetState w
  = (Ok (),
     on_dapp
       (λ d, {| token := token d; pollDataInterval := pollDataInterval d;
                myAddress := myAddress d; tokenData := Null;
                balance := Null; txBeingSent := Null;
                transactionError := Null; networkError := Null |}) w).
Proof. done. Qed.

(** The listener for network changes stops the tracked timer and resets
    the state cells; the connected address and the contract stay. *)
Lemma networkChanged_listener_effect id w :
  let w' := exec (networkChanged_listener id) w in
  intervals (window w') = intervals (window w) ∖ tracked w
  ∧ dapp w'
    = {| token := token (dapp w); pollDataInterval := Undefined;
         myAddress := myAddress (dapp w); tokenData := Null;
         balance := Null; txBeingSent := Null; transactionError := Null;
         networkError := Null |}.
Proof.
  unfold tracked. unfold_dapp. simpl.
  destruct (pollDataInterval (dapp w)); simpl; split; set_solver.
Qed.
End Properties.

(** ** The defect in the reset *)

(** C3.  [0xAA] is connected and the wallet switches to network 1.  The
    timer is stopped and the five state cells are cleared, but
    [myAddress.current] still holds [0xAA] and [token.current] still holds
    the contract, so the page is not back in its initial state: it renders
    the loading screen, where the initial page renders the connect
    screen. *)
Theorem network_change_keeps_address :
  let w' := step flaky_connected (WalletEmits (NetworkChanged "1")) in
  myAddress (dapp flaky_connected) = Val "0xAA"
  ∧ intervals (window w') = ∅
  ∧ dapp w'
    = {| token := token (dapp flaky_connected); pollDataInterval := Undefined;
         myAddress := Val "0xAA"; tokenData := Null; balance := Null;
         txBeingSent := Null; transactionError := Null;
         networkError := Null |}
  ∧ nullish (myAddress (dapp w')) = false
  ∧ nullish (token (dapp w')) = false
  ∧ render w' = LoadingView
  ∧ render (initial_world "1" flaky_script) = ConnectWalletView.
Proof. repeat split; by vm_compute. Qed.

(** ** Where the specification and the component part *)

(** C1, as stated, fails: two starts in a row leave two timers alive.  The
    first timer, id 1, is still alive and no longer tracked. *)
Lemma two_starts_two_timers :
  let w := poller_run [Start; Start]
             (initial_world HARDHAT_NETWORK_ID silence) in
  live_timers w = 2
  ∧ ¬ live_timers w ≤ 1
  ∧ intervals (window w) = {[1; 2]}
  ∧ pollDataInterval (dapp w) = Val 2.
Proof.
  assert (live_timers
            (poller_run [Start; Start]
               (initial_world HARDHAT_NETWORK_ID silence)) = 2) as Htwo
    by (by vm_compute).
  cbv zeta. rewrite Htwo. repeat split; [lia|by vm_compute..].
Qed.

(** The same leak through the page: two connect clicks that both get
    through start the poller twice. *)
Lemma two_connects_two_timers :
  let w := run [ClickConnect; ClickConnect]
             (initial_world HARDHAT_NETWORK_ID foo_ledger) in
  intervals (window w) = {[1; 2]} ∧ pollDataInterval (dapp w) = Val 2.
Proof. split; by vm_compute. Qed.

(** C9, as stated, fails: after two connect clicks that both got through,
    unmounting clears timer 2, the tracked one, and forgets the handle;
    timer 1 is still alive and its next firing asks for the balance, so the
    poller is not stopped. *)
Lemma unmount_leaves_leaked_timer :
  let w := run [ClickConnect; ClickConnect]
             (initial_world HARDHAT_NETWORK_ID foo_ledger) in
  let w' := step w Unmount in
  intervals (window w) = {[1; 2]}
  ∧ pollDataInterval (dapp w) = Val 2
  ∧ intervals (window w') = {[1]}
  ∧ pollDataInterval (dapp w') = Undefined
  ∧ intervals (window w') ≠ ∅
  ∧ calls (step w' (TimerFires 1))
    = calls w' ++ [CallBalanceOf (Val "0xAA")].
Proof.
  assert (intervals
            (window
               (step
                  (run [ClickConnect; ClickConnect]
                     (initial_world HARDHAT_NETWORK_ID foo_ledger))
                  Unmount)) = {[1]}) as Hleft by (by vm_compute).
  cbv zeta. rewrite Hleft.
  split; [by vm_compute|]. split; [by vm_compute|]. split; [done|].
  split; [by vm_compute|]. split; [|by vm_compute].
  intros Hnone. assert (1 ∈ (∅ : gset nat)) as Hin
    by (rewrite <- Hnone; set_solver).
  set_solver.
Qed.

(** C2, as stated, fails: the timer of a connected page fires, the read is
    rejected, and neither error cell is set; the rejection is unhandled. *)
Lemma failed_read_sets_no_error :
  let w := flaky_connected in
  let w' := step w (TimerFires 1) in
  intervals (window w) = {[1]}
  ∧ (token_balanceOf (myAddress (dapp w)) (remote w)).1 = Rejected rpc_error
  ∧ transactionError (dapp w') = Undefined
  ∧ networkError (dapp w') = Undefined
  ∧ unhandled (window w') = [rpc_error]
  ∧ intervals (window w') = {[1]}.
Proof. repeat split; by vm_compute. Qed.

(** C5, as stated, fails: the transfer is mined with status 1, the balance
    read that follows is rejected, and the rejection becomes the transaction
    error. *)
Lemma confirmed_transfer_with_error :
  let w := flaky_connected in
  let w' := exec (transferTokens "0xBB" 10%N) w in
  calls w'
  = calls w ++ [CallTransfer "0xBB" 10%N; CallWait {| hash := "0xabc" |};
                CallBalanceOf (Val "0xAA")]
  ∧ (tx_wait {| hash := "0xabc" |}
       (token_transfer "0xBB" 10%N (remote w)).2).1
    = Resolved {| status := 1 |}
  ∧ transactionError (dapp w') = Val rpc_error
  ∧ nullish (transactionError (dapp w')) = false.
Proof. repeat split; by vm_compute. Qed.

(** C7, as stated, fails: on network 1 the user declines the account
    request; the call ends there and no network error is set. *)
Lemma refused_connect_no_network_error :
  let w := refused_on_mainnet in
  networkVersion (window w) ≠ HARDHAT_NETWORK_ID
  ∧ (connectWallet w).1 = Thrown user_rejected
  ∧ networkError (dapp (exec connectWallet w)) = Undefined
  ∧ networkError (dapp (step w ClickConnect)) = Undefined.
Proof. repeat split; by vm_compute. Qed.

(** ** The theorems at work on concrete pages *)

Lemma one_timer_when_stopped_first_witness :
  let w := initial_world HARDHAT_NETWORK_ID silence in
  intervals (window w) = ∅
  ∧ stops_before_starts false ([Start; Stop; Start] ++ [Fire 2; Stop]) = true
  ∧ live_timers (poller_run [Start; Stop; Start] w) ≤ 1.
Proof.
  split; [reflexivity|]. split; [reflexivity|].
  apply (proj2 (one_timer_when_stopped_first
                  (initial_world HARDHAT_NETWORK_ID silence))
           [Start; Stop; Start] [Fire 2; Stop]); reflexivity.
Defined.

Lemma failed_poll_read_witness :
  let w := flaky_connected in
  let w' := exec (timer_fires 1) w in
  unhandled (window w') = unhandled (window w) ++ [rpc_error]
  ∧ dapp w' = dapp w
  ∧ intervals (window w') = intervals (window w)
  ∧ balance (dapp (exec (timer_fires 1) w')) = Val 100%N.
Proof.
  destruct (failed_poll_read flaky_connected 1
              {| contract_at := contractAddress; contract_signer := 0 |}
              rpc_error
              (token_balanceOf (Val "0xAA") (remote flaky_connected)).2)
    as (Hlive & _ & Hdapp & _ & Hun & Hnext).
  - apply (bool_decide_unpack _). by vm_compute.
  - reflexivity.
  - reflexivity.
  - split; [exact Hun|]. split; [exact Hdapp|]. split; [exact Hlive|].
    apply (Hnext 100%N
             (token_balanceOf (Val "0xAA")
                (token_balanceOf (Val "0xAA") (remote flaky_connected)).2).2).
    reflexivity.
Defined.

Lemma transfer_rejected_by_user_witness :
  let w := declining_connected in
  let w' := exec (transferTokens "0xBB" 10%N) w in
  (transferTokens "0xBB" 10%N w).1 = Ok ()
  ∧ transactionError (dapp w') = Null
  ∧ txBeingSent (dapp w') = Null
  ∧ networkError (dapp w') = networkError (dapp w)
  ∧ window w' = window w.
Proof.
  apply (transfer_rejected_by_user declining_connected
           {| contract_at := contractAddress; contract_signer := 0 |}
           "0xBB" 10%N user_rejected
           (token_transfer "0xBB" 10%N (remote declining_connected)).2);
    reflexivity.
Defined.

Lemma receipt_classification_witness :
  let w' := exec (transferTokens "0xBB" 10%N) flaky_connected in
  transactionError (dapp w') = Val rpc_error ∧ txBeingSent (dapp w') = Null.
Proof.
  exact (receipt_classification flaky_connected
           {| contract_at := contractAddress; contract_signer := 0 |}
           "0xBB" 10%N {| hash := "0xabc" |}
           (token_transfer "0xBB" 10%N (remote flaky_connected)).2
           {| status := 1 |}
           (tx_wait {| hash := "0xabc" |}
              (token_transfer "0xBB" 10%N (remote flaky_connected)).2).2
           eq_refl eq_refl eq_refl).
Defined.

Lemma pending_hash_cleared_witness :
  settled (transferTokens "0xBB" 10%N flaky_connected).1 = true
  ∧ txBeingSent (dapp (exec (transferTokens "0xBB" 10%N) flaky_connected))
    = Null.
Proof.
  split; [reflexivity|].
  apply (pending_hash_cleared flaky_connected "0xBB" 10%N). reflexivity.
Defined.

Lemma unmount_only_stops_poller_witness :
  let w := flaky_connected in
  let w' := exec unmount w in
  intervals (window w) = {[1]}
  ∧ intervals (window w') = ∅
  ∧ balance (dapp w') = Val 100%N
  ∧ myAddress (dapp w') = Val "0xAA".
Proof.
  destruct (unmount_only_stops_poller flaky_connected)
    as (_ & _ & _ & Hnone & _ & Haddr & _ & Hbal & _).
  split; [reflexivity|]. split; [|split].
  - apply Hnone. reflexivity.
  - etrans; [exact Hbal|reflexivity].
  - etrans; [exact Haddr|reflexivity].
Defined.

Lemma wrong_network_connect_witness :
  let w := offered_on_mainnet in
  networkVersion (window w) ≠ HARDHAT_NETWORK_ID
  ∧ connectWallet w
    = (Ok (),
       on_dapp
         (with_networkError (Val "Please connect Metamask to Localhost:8545"))
         (called CallEnable (ethereum_enable (remote w)).2 w))
  ∧ calls (exec connectWallet w) = calls w ++ [CallEnable].
Proof.
  assert (networkVersion (window offered_on_mainnet) ≠ HARDHAT_NETWORK_ID)
    as Hnet by discriminate.
  destruct (wrong_network_connect offered_on_mainnet Hnet) as [Hframe Hmsg].
  split; [exact Hnet|]. split.
  - apply (Hmsg ["0xAA"]). reflexivity.
  - apply Hframe.
Defined.

(** The scenario of the specification: [0xAA] holds 100 Foo and sends 10 to
    [0xBB]; the transfer is mined with status 1 and the page ends with
    balance 90, no pending hash and no transaction error. *)
Lemma confirmed_transfer_refreshes_witness :
  let w := foo_connected in
  let w' := exec (transferTokens "0xBB" 10%N) w in
  balance (dapp w) = Val 100%N
  ∧ (transferTokens "0xBB" 10%N w).1 = Ok ()
  ∧ balance (dapp w') = Val 90%N
  ∧ txBeingSent (dapp w') = Null
  ∧ transactionError (dapp w') = Null
  ∧ calls w'
    = calls w ++ [CallTransfer "0xBB" 10%N; CallWait {| hash := "0xtx0" |};
                  CallBalanceOf (Val "0xAA")].
Proof.
  destruct (confirmed_transfer_refreshes foo_connected
              {| contract_at := contractAddress; contract_signer := 0 |}
              "0xBB" 10%N {| hash := "0xtx0" |}
              (token_transfer "0xBB" 10%N (remote foo_connected)).2
              {| status := 1 |}
              (tx_wait {| hash := "0xtx0" |}
                 (token_transfer "0xBB" 10%N (remote foo_connected)).2).2)
    as [Hcalls Hread]; [reflexivity..|].
  destruct (Hread 90%N
              (tx_wait {| hash := "0xtx0" |}
                 (token_transfer "0xBB" 10%N (remote foo_connected)).2).2)
    as (Hok & Hbal & Htx & Herr & _); [reflexivity|].
  split; [reflexivity|]. split; [exact Hok|]. split; [exact Hbal|].
  split; [exact Htx|]. split; [exact Herr|exact Hcalls].
Defined.

Lemma connects_accumulate_listeners_witness :
  let w0 := initial_world HARDHAT_NETWORK_ID foo_ledger in
  let w := run [ClickConnect; ClickConnect] w0 in
  connect_succeeds w0 = true
  ∧ listeners (window (exec connectWallet w0)) = registered
  ∧ listeners_for "accountsChanged" w = [OnAccountsChanged; OnAccountsChanged]
  ∧ listeners_for "networkChanged" w = [OnNetworkChanged; OnNetworkChanged]
  ∧ console (window (exec (wallet_emits (NetworkChanged "1")) w))
    = console (window w) ++ [LogText "1"; LogText "1"].
Proof.
  destruct (connects_accumulate_listeners HARDHAT_NETWORK_ID foo_ledger
              [ClickConnect; ClickConnect])
    as (Hreg & Hacc & Hnet & _ & _ & Hlog).
  split; [reflexivity|]. split; [|split; [exact Hacc|split; [exact Hnet|]]].
  - apply (Hreg (initial_world HARDHAT_NETWORK_ID foo_ledger)). reflexivity.
  - apply (Hlog "1").
Defined.


(** * More of the component *)

Section Further.
Context {B : Type} {remote_side : Remote B}.
Implicit Types (w : World B) (e : JsError).

(** ** Connecting *)

(** X1.  A connect on the accepted network whose account request is
    granted and whose three reads answer without changing the remote side
    (so that the order in which they are asked does not matter): the page
    holds the contract, the first account, the token data and the balance,
    polls on one new timer, and has the two listeners added.  The transfer
    cells and the network error are not touched.  With a non-empty address
    the dapp screen is displayed, with the heading and welcome line made of
    the values read. *)
Theorem connect_initializes w a rest b1 n s bal :
  ethereum_enable (remote w) = (Resolved (a :: rest), b1) →
  networkVersion (window w) = HARDHAT_NETWORK_ID →
  token_name b1 = (Resolved n, b1) →
  token_symbol b1 = (Resolved s, b1) →
  token_balanceOf (Val a) b1 = (Resolved bal, b1) →
  let w' := exec connectWallet w in
  (connectWallet w).1 = Ok ()
  ∧ dapp w'
    = {| token := Val the_contract;
         pollDataInterval := Val (next_interval (window w));
         myAddress := Val a;
         tokenData := Val {| name := n; symbol := s |};
         balance := Val bal;
         txBeingSent := txBeingSent (dapp w);
         transactionError := transactionError (dapp w);
         networkError := networkError (dapp w) |}
  ∧ intervals (window w')
    = {[next_interval (window w)]} ∪ intervals (window w)
  ∧ listeners (window w') = listeners (window w) ++ registered
  ∧ unhandled (window w') = unhandled (window w)
  ∧ (a ≠ "" →
     ∃ scr,
       render_page w' = DappPage scr
       ∧ heading scr = n +:+ " (" +:+ s +:+ ")"
       ∧ welcome scr
         = "Welcome " +:+ a +:+ ", you have " +:+ toString bal
           +:+ " " +:+ s +:+ ".").
Proof.
  intros Hen Hnet Hname Hsym Hbal. unfold the_contract.
  unfold render_page. unfold_dapp. simpl.
  rewrite Hen. simpl. rewrite decide_True by done. simpl.
  rewrite Hname. simpl. rewrite Hsym. simpl. rewrite Hbal. simpl.
  do 3 (split; [done|]). split; [by rewrite <- app_assoc|]. split; [done|].
  intros Ha. rewrite bool_decide_eq_false_2 by done. eauto.
Qed.

(** X2.  A connect on the accepted network when the wallet offers no account:
    the address stays [undefined], yet the contract is set up, a timer is
    started, the balance of [undefined] is asked for and the listeners are
    added; the page still displays the connect screen. *)
Theorem connect_without_account w b1 :
  ethereum_enable (remote w) = (Resolved [], b1) →
  networkVersion (window w) = HARDHAT_NETWORK_ID →
  let w' := exec connectWallet w in
  (connectWallet w).1 = Ok ()
  ∧ myAddress (dapp w') = Undefined
  ∧ token (dapp w') = Val the_contract
  ∧ pollDataInterval (dapp w') = Val (next_interval (window w))
  ∧ intervals (window w')
    = {[next_interval (window w)]} ∪ intervals (window w)
  ∧ listeners (window w') = listeners (window w) ++ registered
  ∧ CallBalanceOf Undefined ∈ calls w'
  ∧ render_page w' = ConnectWalletPage (networkError (dapp w)).
Proof.
  intros Hen Hnet. unfold the_contract, render_page. unfold_dapp. simpl.
  rewrite Hen. simpl. rewrite decide_True by done. simpl.
  repeat (case_match; simplify_eq/=);
    do 5 (split; [done|]); (split; [by rewrite <- app_assoc|]);
    (split; [set_solver|done]).
Qed.

(** X3.  An account request that is declined or never answered ends the connect
    there: only the call is recorded.  No cell, timer or listener changes
    and no error is shown; through the connect button the rejection is left
    unhandled. *)
Theorem connect_declined w :
  (∀ accounts, (ethereum_enable (remote w)).1 ≠ Resolved accounts) →
  let w' := step w ClickConnect in
  dapp w' = dapp w
  ∧ intervals (window w') = intervals (window w)
  ∧ listeners (window w') = listeners (window w)
  ∧ console (window w') = console (window w)
  ∧ calls w' = calls w ++ [CallEnable]
  ∧ unhandled (window w')
    = unhandled (window w)
      ++ match (ethereum_enable (remote w)).1 with
         | Rejected e => [e]
         | _ => []
         end.
Proof.
  intros Hno. unfold step, act. unfold_dapp. simpl.
  destruct (ethereum_enable (remote w)) as [[accounts|e|] b]; simpl in *.
  - by destruct (Hno accounts).
  - done.
  - by rewrite app_nil_r.
Qed.

(** ** Account changes *)

Lemma stopPollingData_cells w :
  let w' := exec stopPollingData w in
  stopPollingData w = (Ok (), w')
  ∧ dapp w' = with_pollDataInterval Undefined (dapp w)
  ∧ next_interval (window w') = next_interval (window w)
  ∧ listeners (window w') = listeners (window w)
  ∧ calls w' = calls w
  ∧ remote w' = remote w.
Proof. unfold_dapp. simpl. by destruct (pollDataInterval (dapp w)). Qed.

Lemma initialize_cells v w :
  let w' := exec (initialize v) w in
  (initialize v w).1 = Ok ()
  ∧ myAddress (dapp w') = v
  ∧ token (dapp w') = Val the_contract
  ∧ pollDataInterval (dapp w') = Val (next_interval (window w))
  ∧ intervals (window w')
    = {[next_interval (window w)]} ∪ intervals (window w)
  ∧ CallBalanceOf v ∈ calls w'
  ∧ txBeingSent (dapp w') = txBeingSent (dapp w)
  ∧ transactionError (dapp w') = transactionError (dapp w)
  ∧ networkError (dapp w') = networkError (dapp w)
  ∧ listeners (window w') = listeners (window w).
Proof.
  unfold the_contract. unfold_dapp. simpl.
  repeat (case_match; simplify_eq/=);
    do 5 (split; [done|]); (split; [set_solver|done]).
Qed.

Lemma accountsChanged_listener_switch a rest w :
  accountsChanged_listener (a :: rest) w
  = initialize (Val a) (exec stopPollingData w).
Proof.
  destruct (stopPollingData_cells w) as [Hrun _].
  unfold accountsChanged_listener. unfold mbind, M_bind at 1.
  by rewrite Hrun.
Qed.


(** X5.  The account listener called with no account (the site was disconnected
    in the wallet): the tracked timer is stopped and the five state cells
    are set to [null].  Nothing is asked of the remote side and the poller
    is not restarted.  The address and the contract stay in their refs, so
    a page that had a non-empty address displays the loading screen. *)
Theorem account_removed w :
  let w' := exec (accountsChanged_listener []) w in
  (accountsChanged_listener [] w).1 = Ok ()
  ∧ dapp w'
    = {| token := token (dapp w); pollDataInterval := Undefined;
         myAddress := myAddress (dapp w); tokenData := Null;
         balance := Null; txBeingSent := Null; transactionError := Null;
         networkError := Null |}
  ∧ intervals (window w') = intervals (window w) ∖ tracked w
  ∧ listeners (window w') = listeners (window w)
  ∧ calls w' = calls w
  ∧ remote w' = remote w
  ∧ (∀ a, myAddress (dapp w) = Val a → a ≠ "" → render_page w' = LoadingPage).
Proof.
  unfold tracked, render_page. unfold_dapp. simpl.
  destruct (pollDataInterval (dapp w)) as [| |tid]; simpl;
    (split; [done|split; [done|split; [set_solver|]]]);
    do 3 (split; [done|]); intros a -> Ha;
    by rewrite bool_decide_eq_false_2.
Qed.

(** X6.  The account listener called with a new account, on a page whose only
    live timer, if any, is the tracked one: the old timer is stopped and
    exactly one new timer runs for the new address, whose balance is asked
    for.  The network is not checked again, and the transfer cells and the
    network error are left alone. *)
Theorem account_switched w a rest :
  intervals (window w) ⊆ tracked w →
  let w' := exec (accountsChanged_listener (a :: rest)) w in
  (accountsChanged_listener (a :: rest) w).1 = Ok ()
  ∧ myAddress (dapp w') = Val a
  ∧ token (dapp w') = Val the_contract
  ∧ pollDataInterval (dapp w') = Val (next_interval (window w))
  ∧ intervals (window w') = {[next_interval (window w)]}
  ∧ CallBalanceOf (Val a) ∈ calls w'
  ∧ txBeingSent (dapp w') = txBeingSent (dapp w)
  ∧ transactionError (dapp w') = transactionError (dapp w)
  ∧ networkError (dapp w') = networkError (dapp w)
  ∧ listeners (window w') = listeners (window w).
Proof.
  intros Hsub. unfold exec. rewrite accountsChanged_listener_switch.
  destruct (stopPollingData_cells w) as (_ & Hd & Hn & Hl & _).
  destruct (stopPollingData_timers w) as [Hi _].
  destruct (initialize_cells (Val a) (exec stopPollingData w))
    as (H1 & H2 & H3 & H4 & H5 & H6 & H7 & H8 & H9 & H10).
  unfold exec in *. rewrite H2, H3, H4, H5, H7, H8, H9, H10, Hn, Hl, Hi, Hd.
  do 4 (split; [done|]). split; [set_solver|]. done.
Qed.

(** X7.  [initialize] does not clear what the previous account left.  When
    after a switch of account the name and the symbol are read again but
    the balance read does not answer (none of the three reads changing the
    remote side, so that their order does not matter), the page has the new
    address with the old balance, and displays them together. *)
Theorem account_switch_keeps_old_balance w a rest n s r old :
  token_name (remote w) = (Resolved n, remote w) →
  token_symbol (remote w) = (Resolved s, remote w) →
  token_balanceOf (Val a) (remote w) = (r, remote w) →
  (∀ bal, r ≠ Resolved bal) →
  balance (dapp w) = Val old →
  a ≠ "" →
  let w' := exec (accountsChanged_listener (a :: rest)) w in
  myAddress (dapp w') = Val a
  ∧ tokenData (dapp w') = Val {| name := n; symbol := s |}
  ∧ balance (dapp w') = Val old
  ∧ ∃ scr,
      render_page w' = DappPage scr
      ∧ welcome scr
        = "Welcome " +:+ a +:+ ", you have " +:+ toString old
          +:+ " " +:+ s +:+ ".".
Proof.
  intros Hname Hsym Hbal Hno Hold Ha. unfold render_page. unfold_dapp. simpl.
  destruct (pollDataInterval (dapp w)) as [| |tid]; simpl;
    rewrite Hname; simpl; rewrite Hsym; simpl; rewrite Hbal; simpl;
    (destruct r as [bal|e|]; simpl; [by destruct (Hno bal)|..]);
    rewrite Hold, bool_decide_eq_false_2 by done;
    do 3 (split; [done|]); eexists; (split; [done|]); done.
Qed.

(** ** Transfers that do not go through *)

(** X8.  A transfer asked for before any connect: [token.current] is not set,
    the [TypeError] is caught, logged and kept as the transaction error, and
    the remote side is never called. *)
Theorem transfer_before_connect w to amount :
  (∀ c, token (dapp w) ≠ Val c) →
  let w' := exec (transferTokens to amount) w in
  (transferTokens to amount w).1 = Ok ()
  ∧ transactionError (dapp w') = Val TypeError
  ∧ txBeingSent (dapp w') = Null
  ∧ console (window w') = console (window w) ++ [LogError TypeError]
  ∧ calls w' = calls w
  ∧ remote w' = remote w.
Proof.
  intros Hno. unfold_dapp. simpl.
  destruct (token (dapp w)) as [| |c]; simpl; try done.
  by destruct (Hno c).
Qed.

(** X9.  A transfer the wallet or the node refuses for another reason than the
    user's choice: the error is logged and kept, the pending hash is
    cleared, and neither the confirmation nor the balance is asked for.  The
    banner of the dapp screen shows [data.message] when the error has one,
    and [message] otherwise. *)
Theorem transfer_submission_fails w c to amount e b :
  token (dapp w) = Val c →
  token_transfer to amount (remote w) = (Rejected e, b) →
  err_code e ≠ Some ERROR_CODE_TX_REJECTED_BY_USER →
  let w' := exec (transferTokens to amount) w in
  (transferTokens to amount w).1 = Ok ()
  ∧ transactionError (dapp w') = Val e
  ∧ txBeingSent (dapp w') = Null
  ∧ balance (dapp w') = balance (dapp w)
  ∧ console (window w') = console (window w) ++ [LogError e]
  ∧ calls w' = calls w ++ [CallTransfer to amount]
  ∧ remote w' = b
  ∧ (∀ scr,
       render_page w' = DappPage scr →
       waiting_for scr = None
       ∧ error_message scr
         = Some (default (err_message e) (err_data e))).
Proof.
  intros Htok Hsub Hcode. unfold render_page, getRpcErrorMessage.
  unfold_dapp. simpl. rewrite Htok. simpl. rewrite Hsub. simpl.
  rewrite decide_False by done. simpl. do 7 (split; [done|]).
  intros scr Hscr. repeat (case_match; simplify_eq/=); done.
Qed.

(** X10.  A transfer that was sent but whose confirmation fails: the error of
    [tx.wait()] is logged and kept, the pending hash is cleared and the
    balance is not read again. *)
Theorem transfer_confirmation_fails w c to amount tx b1 e b2 :
  token (dapp w) = Val c →
  token_transfer to amount (remote w) = (Resolved tx, b1) →
  tx_wait tx b1 = (Rejected e, b2) →
  err_code e ≠ Some ERROR_CODE_TX_REJECTED_BY_USER →
  let w' := exec (transferTokens to amount) w in
  (transferTokens to amount w).1 = Ok ()
  ∧ transactionError (dapp w') = Val e
  ∧ txBeingSent (dapp w') = Null
  ∧ balance (dapp w') = balance (dapp w)
  ∧ console (window w') = console (window w) ++ [LogError e]
  ∧ calls w' = calls w ++ [CallTransfer to amount; CallWait tx]
  ∧ remote w' = b2.
Proof.
  intros Htok Hsub Hwait Hcode. unfold_dapp. simpl. rewrite Htok. simpl.
  rewrite Hsub. simpl. rewrite Hwait. simpl.
  rewrite decide_False by done. simpl. by rewrite <- app_assoc.
Qed.

(** X11.  While a sent transfer is not mined the call stays suspended with the
    transaction's hash in [txBeingSent] and no error; the dapp screen then
    shows the waiting message for that hash. *)
Theorem transfer_waiting_to_be_mined w c to amount tx b1 b2 :
  token (dapp w) = Val c →
  token_transfer to amount (remote w) = (Resolved tx, b1) →
  tx_wait tx b1 = (Unsettled, b2) →
  let w' := exec (transferTokens to amount) w in
  (transferTokens to amount w).1 = Pending
  ∧ txBeingSent (dapp w') = Val (hash tx)
  ∧ transactionError (dapp w') = Null
  ∧ (∀ scr,
       render_page w' = DappPage scr →
       hash tx ≠ "" →
       waiting_for scr = Some (hash tx) ∧ error_message scr = None).
Proof.
  intros Htok Hsub Hwait. unfold render_page. unfold_dapp. simpl.
  rewrite Htok. simpl. rewrite Hsub. simpl. rewrite Hwait. simpl.
  do 3 (split; [done|]). intros scr Hscr Hh.
  repeat (case_match; simplify_eq/=); try done.
  all: match goal with
       | Hb : bool_decide _ = true |- _ =>
           by apply bool_decide_eq_true_1 in Hb
       end.
Qed.

(** X12.  Whatever the remote side answers, and whether or not the call has
    settled, the transaction error after [transferTokens] is either cleared
    or an error whose code is not 4001: a rejection by the user, at any of
    the three awaits, is never shown. *)
Theorem user_rejection_never_shown w to amount :
  let w' := exec (transferTokens to amount) w in
  transactionError (dapp w') = Null
  ∨ ∃ e, transactionError (dapp w') = Val e
         ∧ err_code e ≠ Some ERROR_CODE_TX_REJECTED_BY_USER.
Proof.
  unfold_dapp. simpl.
  repeat (case_match; simplify_eq/=); eauto.
Qed.


(** ** Polling *)

Lemma tick_touches_only_balance id w :
  let w' := exec (timer_fires id) w in
  dapp w' = with_balance (balance (dapp w')) (dapp w)
  ∧ intervals (window w') = intervals (window w)
  ∧ listeners (window w') = listeners (window w).
Proof.
  destruct w as [d x cs b]. destruct d.
  unfold timer_fires, exec. case_decide; [|done].
  unfold_dapp. simpl. repeat (case_match; simplify_eq/=); done.
Qed.

(** X14.  Timer firings, however many and whatever the reads answer, change no
    cell but the balance: polling never fetches the token data, so a page
    whose token data could not be read stays off the dapp screen until the
    account changes. *)
Theorem ticks_touch_only_balance ids w :
  let w' := run (TimerFires <$> ids) w in
  token (dapp w') = token (dapp w)
  ∧ pollDataInterval (dapp w') = pollDataInterval (dapp w)
  ∧ myAddress (dapp w') = myAddress (dapp w)
  ∧ tokenData (dapp w') = tokenData (dapp w)
  ∧ txBeingSent (dapp w') = txBeingSent (dapp w)
  ∧ transactionError (dapp w') = transactionError (dapp w)
  ∧ networkError (dapp w') = networkError (dapp w)
  ∧ intervals (window w') = intervals (window w)
  ∧ listeners (window w') = listeners (window w)
  ∧ (nullish (tokenData (dapp w)) = true →
     ∀ scr, render_page w' ≠ DappPage scr).
Proof.
  revert w. unfold run.
  induction ids as [|id ids IH]; intros w.
  - simpl. do 9 (split; [done|]). intros Hno scr. unfold render_page.
    destruct (tokenData (dapp w)); [| |done];
      repeat (case_match; simplify_eq/=); done.
  - rewrite fmap_cons. cbn [foldl].
    change (step w (TimerFires id)) with (exec (timer_fires id) w).
    destruct (tick_touches_only_balance id w) as (Hd & Hi & Hl).
    destruct (IH (exec (timer_fires id) w))
      as (H1 & H2 & H3 & H4 & H5 & H6 & H7 & H8 & H9 & H10).
    rewrite H1, H2, H3, H4, H5, H6, H7, H8, H9, Hi, Hl.
    split; [by rewrite Hd|]. split; [by rewrite Hd|].
    split; [by rewrite Hd|]. split; [by rewrite Hd|].
    split; [by rewrite Hd|]. split; [by rewrite Hd|].
    split; [by rewrite Hd|]. do 2 (split; [done|]).
    intros Hno. apply H10. by rewrite Hd.
Qed.

(** X15.  Stopping the poller twice is stopping it once, and stopping a poller
    that was never started changes nothing at all. *)
Theorem stop_is_idempotent w :
  stopPollingData (exec stopPollingData w)
  = (Ok (), exec stopPollingData w)
  ∧ (pollDataInterval (dapp w) = Undefined → exec stopPollingData w = w).
Proof.
  unfold_dapp. simpl. split.
  - by destruct (pollDataInterval (dapp w)).
  - intros Hp. rewrite Hp. simpl. destruct w as [d x cs b]. simpl in *.
    destruct d. simpl in *. by subst.
Qed.

(** ** The dapp screen *)

(** X16.  On the dapp screen exactly one of the no-tokens message and the
    transfer form is displayed: the message for the connected address when
    the balance is zero, the form for the token's symbol when it is
    positive. *)
Theorem tokens_or_form w scr :
  render_page w = DappPage scr →
  ∃ a td bal,
    myAddress (dapp w) = Val a
    ∧ tokenData (dapp w) = Val td
    ∧ balance (dapp w) = Val bal
    ∧ ((bal = 0%N ∧ no_tokens_for scr = Some a ∧ transfer_form scr = None)
       ∨ ((0 < bal)%N ∧ no_tokens_for scr = None
          ∧ transfer_form scr = Some (symbol td))).
Proof.
  unfold render_page.
  destruct (myAddress (dapp w)) as [| |a]; try done.
  case_bool_decide; [done|].
  destruct (tokenData (dapp w)) as [| |td]; try done.
  destruct (balance (dapp w)) as [| |bal]; try done.
  intros [= <-]. exists a, td, bal. simpl. do 3 (split; [done|]).
  destruct (N.eqb_spec bal 0) as [->|Hne].
  - by left.
  - right. assert (0 < bal)%N as Hpos by lia.
    split; [done|]. split; [done|].
    by rewrite (proj2 (N.ltb_lt 0 bal) Hpos).
Qed.

(** ** What every page reachable from the first render satisfies *)

Lemma run_keeps (P : World B → Prop) :
  (∀ w a, P w → P (step w a)) →
  ∀ acts w, P w → P (run acts w).
Proof.
  intros Hstep acts. unfold run.
  induction acts as [|a acts IH]; intros w Hw; [done|].
  simpl. apply IH, Hstep, Hw.
Qed.

Lemma call_all_keeps (P : World B → Prop) ev :
  (∀ l w, P w → P (exec (deliver ev l) w)) →
  ∀ ls w, P w → P (exec (call_all ev ls) w).
Proof.
  intros Hone ls. induction ls as [|l ls IH]; intros w Hw; [done|].
  specialize (Hone l w Hw). unfold exec in *. cbn [call_all].
  unfold mbind, M_bind. destruct (deliver ev l w) as [[[]|e|] w1]; simpl in *;
    [by apply IH|done..].
Qed.

Lemma wallet_emits_keeps (P : World B → Prop) ev :
  (∀ id w, P w → P (on_window (with_networkVersion id) w)) →
  (∀ l w, P w → P (exec (deliver ev l) w)) →
  ∀ w, P w → P (exec (wallet_emits ev) w).
Proof.
  intros Hnet Hone w Hw. destruct ev as [accounts|id].
  - apply (call_all_keeps P _ Hone), Hw.
  - unfold wallet_emits, exec, mbind, M_bind, emit. simpl.
    apply (call_all_keeps P _ Hone), Hnet, Hw.
Qed.

(** What a connect click does to the refs and the timers: nothing, or one
    more timer next to a contract that is set up. *)
Lemma connect_click_session w :
  let w' := exec (spawn connectWallet) w in
  (token (dapp w') = token (dapp w)
   ∧ myAddress (dapp w') = myAddress (dapp w)
   ∧ pollDataInterval (dapp w') = pollDataInterval (dapp w)
   ∧ intervals (window w') = intervals (window w))
  ∨ (token (dapp w') = Val the_contract
     ∧ pollDataInterval (dapp w') = Val (next_interval (window w))
     ∧ intervals (window w')
       = {[next_interval (window w)]} ∪ intervals (window w)).
Proof.
  unfold the_contract. unfold_dapp. simpl.
  destruct (ethereum_enable (remote w)) as [[accounts|e|] b]; simpl;
    [|by left..].
  destruct (decide _); simpl; [|by left].
  right. repeat (case_match; simplify_eq/=); done.
Qed.

(** What a listener does to them: nothing, a stop, or a stop and a start. *)
Lemma deliver_session ev l w :
  let w' := exec (deliver ev l) w in
  (token (dapp w') = token (dapp w)
   ∧ myAddress (dapp w') = myAddress (dapp w)
   ∧ pollDataInterval (dapp w') = pollDataInterval (dapp w)
   ∧ intervals (window w') = intervals (window w))
  ∨ (token (dapp w') = token (dapp w)
     ∧ myAddress (dapp w') = myAddress (dapp w)
     ∧ pollDataInterval (dapp w') = Undefined
     ∧ intervals (window w') = intervals (window w) ∖ tracked w)
  ∨ (token (dapp w') = Val the_contract
     ∧ pollDataInterval (dapp w') = Val (next_interval (window w))
     ∧ intervals (window w')
       = {[next_interval (window w)]} ∪ (intervals (window w) ∖ tracked w)).
Proof.
  destruct l, ev as [accounts|id]; unfold deliver; try (by left).
  - destruct accounts as [|a rest].
    + right; left. unfold tracked. unfold_dapp. simpl.
      destruct (pollDataInterval (dapp w)); simpl;
        do 3 (split; [done|]); set_solver.
    + right; right. unfold exec. rewrite accountsChanged_listener_switch.
      destruct (stopPollingData_cells w) as (_ & _ & Hn & _).
      destruct (stopPollingData_timers w) as [Hi _].
      destruct (initialize_cells (Val a) (exec stopPollingData w))
        as (_ & _ & H3 & H4 & H5 & _).
      unfold exec in *. by rewrite H3, H4, H5, Hn, Hi.
  - right; left. unfold tracked. unfold_dapp. simpl.
    destruct (pollDataInterval (dapp w)); simpl;
      do 3 (split; [done|]); set_solver.
Qed.

Lemma transfer_click_session w to amount :
  let w' := exec (spawn (transferTokens to amount)) w in
  token (dapp w') = token (dapp w)
  ∧ myAddress (dapp w') = myAddress (dapp w)
  ∧ pollDataInterval (dapp w') = pollDataInterval (dapp w)
  ∧ intervals (window w') = intervals (window w).
Proof.
  unfold_dapp. simpl. repeat (case_match; simplify_eq/=); done.
Qed.

Lemma step_keeps_handle_alive w a :
  tracked w ⊆ intervals (window w) →
  tracked (step w a) ⊆ intervals (window (step w a)).
Proof.
  destruct a as [|ev|id|to amount| | |]; unfold step, act; intros Hw.
  - unfold tracked in *.
    destruct (connect_click_session w) as [(_ & _ & -> & ->)|(_ & -> & ->)];
      [done|set_solver].
  - revert w Hw.
    apply (wallet_emits_keeps (λ w, tracked w ⊆ intervals (window w))).
    + done.
    + intros l w Hw.
      destruct (deliver_session ev l w)
        as [(_ & _ & Hp & Hi)|[(_ & _ & Hp & Hi)|(_ & Hp & Hi)]];
        unfold tracked at 1; rewrite Hp, Hi; [done|set_solver..].
  - unfold tracked.
    by destruct (timer_fires_timers id w) as [-> ->].
  - unfold tracked in *.
    by destruct (transfer_click_session w to amount) as (_ & _ & -> & ->).
  - done.
  - done.
  - unfold unmount, tracked at 1.
    destruct (stopPollingData_timers w) as [-> ->]. set_solver.
Qed.

(** X17.  On every page reached from the first render, whatever was clicked,
    emitted or answered, the timer handle is not stale: the timer
    [pollDataInterval.current] refers to is alive, so [stopPollingData]
    always has a running timer to clear when the handle is set. *)
Theorem handle_never_stale net (b : B) acts :
  let w := run acts (initial_world net b) in
  tracked w ⊆ intervals (window w)
  ∧ ∀ id, pollDataInterval (dapp w) = Val id →
          id ∈ intervals (window w)
          ∧ id ∉ intervals (window (exec stopPollingData w)).
Proof.
  intros w.
  assert (tracked w ⊆ intervals (window w)) as Hw.
  { apply (run_keeps (λ w, tracked w ⊆ intervals (window w))).
    - intros w1 a. apply step_keeps_handle_alive.
    - done. }
  split; [done|]. intros id Hid.
  destruct (stopPollingData_timers w) as [-> _].
  unfold tracked in *. rewrite Hid in *. set_solver.
Qed.

Lemma step_keeps_contract w a :
  token (dapp w) = Val the_contract
  ∨ (token (dapp w) = Undefined ∧ myAddress (dapp w) = Undefined
     ∧ intervals (window w) = ∅) →
  token (dapp (step w a)) = Val the_contract
  ∨ (token (dapp (step w a)) = Undefined
     ∧ myAddress (dapp (step w a)) = Undefined
     ∧ intervals (window (step w a)) = ∅).
Proof.
  destruct a as [|ev|id|to amount| | |]; unfold step, act; intros Hw.
  - destruct (connect_click_session w)
      as [(-> & -> & _ & ->)|(-> & _)]; [done|by left].
  - revert w Hw.
    apply (wallet_emits_keeps
             (λ w, token (dapp w) = Val the_contract
                   ∨ (token (dapp w) = Undefined
                      ∧ myAddress (dapp w) = Undefined
                      ∧ intervals (window w) = ∅))).
    + done.
    + intros l w Hw.
      destruct (deliver_session ev l w)
        as [(-> & -> & _ & ->)|[(-> & -> & _ & ->)|(-> & _)]];
        [done| |by left].
      destruct Hw as [?|(? & ? & Hi)]; [by left|right]. rewrite Hi.
      do 2 (split; [done|]). set_solver.
  - destruct (tick_touches_only_balance id w) as (-> & -> & _).
    by destruct (dapp w).
  - by destruct (transfer_click_session w to amount) as (-> & -> & _ & ->).
  - done.
  - done.
  - unfold unmount. destruct (stopPollingData_cells w) as (_ & -> & _).
    destruct (stopPollingData_timers w) as [-> _].
    destruct Hw as [?|(? & ? & Hi)]; [by left|right]. rewrite Hi.
    do 2 (split; [done|]). set_solver.
Qed.

Lemma transferTokens_reaches_wallet w c to amount :
  token (dapp w) = Val c →
  ∃ more,
    calls (exec (transferTokens to amount) w)
    = calls w ++ CallTransfer to amount :: more.
Proof.
  intros Htok. unfold_dapp. simpl. rewrite Htok. simpl.
  repeat (case_match; simplify_eq/=); rewrite <- ?app_assoc; simpl; eauto.
Qed.

(** X18.  On every page reached from the first render, the contract is in
    [token.current] whenever it can be used: whenever an address is held or
    a timer is alive.  So a transfer asked for from the dapp screen always
    reaches [token.transfer], and a live timer that fires always asks for
    the balance; neither fails on a missing contract. *)
Theorem contract_set_where_used net (b : B) acts :
  let w := run acts (initial_world net b) in
  (myAddress (dapp w) ≠ Undefined ∨ intervals (window w) ≠ ∅ →
   token (dapp w) = Val the_contract)
  ∧ (∀ scr to amount,
       render_page w = DappPage scr →
       ∃ more,
         calls (exec (transferTokens to amount) w)
         = calls w ++ CallTransfer to amount :: more)
  ∧ (∀ id,
       id ∈ intervals (window w) →
       calls (exec (timer_fires id) w)
       = calls w ++ [CallBalanceOf (myAddress (dapp w))]).
Proof.
  intros w.
  assert (token (dapp w) = Val the_contract
          ∨ (token (dapp w) = Undefined ∧ myAddress (dapp w) = Undefined
             ∧ intervals (window w) = ∅)) as Hw.
  { apply (run_keeps
             (λ w, token (dapp w) = Val the_contract
                   ∨ (token (dapp w) = Undefined
                      ∧ myAddress (dapp w) = Undefined
                      ∧ intervals (window w) = ∅))).
    - intros w1 a. apply step_keeps_contract.
    - by right. }
  assert (myAddress (dapp w) ≠ Undefined ∨ intervals (window w) ≠ ∅ →
          token (dapp w) = Val the_contract) as Hset.
  { intros Huse. destruct Hw as [?|(_ & Ha & Hi)]; [done|].
    by destruct Huse. }
  split; [done|]. split.
  - intros scr to amount Hscr.
    apply (transferTokens_reaches_wallet w the_contract), Hset. left.
    unfold render_page in Hscr. by destruct (myAddress (dapp w)).
  - intros id Hid. unfold timer_fires, exec. rewrite decide_True by done.
    unfold_dapp. simpl. rewrite Hset by (right; set_solver). simpl.
    by destruct (token_balanceOf _ _) as [[bal|e|] b'].
Qed.

(** X4.  A connect whose first read, the token's name, does not answer: the
    symbol is never asked for and the token data stays as it was, while the
    address is set and the poller started.  A page that had no token data
    displays the loading screen, and the name is not asked for again until
    the account changes. *)
Theorem connect_without_name w a rest b1 :
  ethereum_enable (remote w) = (Resolved (a :: rest), b1) →
  networkVersion (window w) = HARDHAT_NETWORK_ID →
  (∀ n, (token_name b1).1 ≠ Resolved n) →
  let w' := exec connectWallet w in
  tokenData (dapp w') = tokenData (dapp w)
  ∧ myAddress (dapp w') = Val a
  ∧ pollDataInterval (dapp w') = Val (next_interval (window w))
  ∧ CallName ∈ calls w'
  ∧ (CallSymbol ∈ calls w' → CallSymbol ∈ calls w)
  ∧ (nullish (tokenData (dapp w)) = true → a ≠ "" →
     render_page w' = LoadingPage).
Proof.
  intros Hen Hnet Hno. unfold render_page. unfold_dapp. simpl.
  rewrite Hen. simpl. rewrite decide_True by done. simpl.
  destruct (token_name b1) as [[n|e|] b2] eqn:Hn; simpl;
    [by destruct (Hno n)|..];
    destruct (token_balanceOf (Val a) b2) as [[bal|e'|] b3]; simpl;
    do 3 (split; [done|]); (split; [set_solver|]); (split; [set_solver|]);
    intros Htd Ha; rewrite bool_decide_eq_false_2 by done;
    by destruct (tokenData (dapp w)).
Qed.
End Further.

(** ** These properties on concrete pages *)

Lemma connect_initializes_witness :
  let w := initial_world HARDHAT_NETWORK_ID foo_ledger in
  let w' := exec connectWallet w in
  balance (dapp w') = Val 100%N
  ∧ intervals (window w') = {[1]}
  ∧ render_page w'
    = DappPage
        {| heading := "Foo (FOO)";
           welcome := "Welcome 0xAA, you have 100 FOO.";
           waiting_for := None; error_message := None;
           no_tokens_for := None; transfer_form := Some "FOO" |}.
Proof.
  intros w w'. subst w'.
  destruct (connect_initializes w "0xAA" [] foo_ledger "Foo" "FOO" 100%N)
    as (_ & Hd & Hi & _ & _ & Hpage); [reflexivity..|].
  destruct (Hpage ltac:(discriminate)) as (scr & Hscr & Hh & Hw).
  split; [by rewrite Hd|]. split; [by rewrite Hi|]. reflexivity.
Defined.

Lemma connect_without_account_witness :
  let w := initial_world HARDHAT_NETWORK_ID no_account_script in
  let w' := exec connectWallet w in
  myAddress (dapp w') = Undefined
  ∧ pollDataInterval (dapp w') = Val 1
  ∧ render_page w' = ConnectWalletPage Undefined.
Proof.
  destruct (connect_without_account
              (initial_world HARDHAT_NETWORK_ID no_account_script)
              (ethereum_enable no_account_script).2)
    as (_ & Ha & _ & Hp & _ & _ & _ & Hpage); [reflexivity..|].
  split; [exact Ha|]. split; [exact Hp|exact Hpage].
Defined.

Lemma connect_declined_witness :
  let w' := step refused_on_mainnet ClickConnect in
  dapp w' = dapp refused_on_mainnet
  ∧ unhandled (window w') = [user_rejected].
Proof.
  destruct (connect_declined refused_on_mainnet)
    as (Hd & _ & _ & _ & _ & Hu); [discriminate|].
  split; [exact Hd|exact Hu].
Defined.

Lemma account_removed_witness :
  let w' := exec (accountsChanged_listener []) flaky_connected in
  balance (dapp w') = Null
  ∧ myAddress (dapp w') = Val "0xAA"
  ∧ render_page w' = LoadingPage.
Proof.
  destruct (account_removed flaky_connected)
    as (_ & Hd & _ & _ & _ & _ & Hpage).
  split; [by rewrite Hd|]. split; [by rewrite Hd|].
  apply (Hpage "0xAA"); [reflexivity|discriminate].
Defined.

Lemma account_switched_witness :
  let w' := exec (accountsChanged_listener ["0xBB"]) flaky_connected in
  intervals (window flaky_connected) = {[1]}
  ∧ intervals (window w') = {[2]}
  ∧ myAddress (dapp w') = Val "0xBB".
Proof.
  destruct (account_switched flaky_connected "0xBB" [])
    as (_ & Ha & _ & _ & Hi & _); [reflexivity|].
  split; [reflexivity|]. split; [exact Hi|exact Ha].
Defined.

Lemma account_switch_keeps_old_balance_witness :
  let w' := exec (accountsChanged_listener ["0xBB"]) balance_offline in
  myAddress (dapp w') = Val "0xBB"
  ∧ tokenData (dapp w') = Val {| name := "Foo"; symbol := "FOO" |}
  ∧ balance (dapp w') = Val 100%N
  ∧ ∃ scr,
      render_page w' = DappPage scr
      ∧ welcome scr = "Welcome 0xBB, you have 100 FOO.".
Proof.
  apply (account_switch_keeps_old_balance balance_offline "0xBB" []
           "Foo" "FOO" (Rejected rpc_error) 100%N);
    [reflexivity|reflexivity|reflexivity|discriminate|reflexivity
    |discriminate].
Defined.

Lemma transfer_before_connect_witness :
  let w := initial_world HARDHAT_NETWORK_ID silence in
  let w' := exec (transferTokens "0xBB" 10%N) w in
  transactionError (dapp w') = Val TypeError ∧ calls w' = [].
Proof.
  destruct (transfer_before_connect
              (initial_world HARDHAT_NETWORK_ID silence) "0xBB" 10%N)
    as (_ & He & _ & _ & Hc & _); [discriminate|].
  split; [exact He|exact Hc].
Defined.

Lemma transfer_submission_fails_witness :
  let w' := exec (transferTokens "0xBB" 10%N) refusing_connected in
  transactionError (dapp w') = Val rpc_error
  ∧ ∃ scr,
      render_page w' = DappPage scr
      ∧ error_message scr = Some "could not detect network".
Proof.
  destruct (transfer_submission_fails refusing_connected the_contract
              "0xBB" 10%N rpc_error
              (token_transfer "0xBB" 10%N (remote refusing_connected)).2)
    as (_ & He & _ & _ & _ & _ & _ & Hpage);
    [reflexivity|reflexivity|discriminate|].
  split; [exact He|].
  exists {| heading := "Foo (FOO)";
            welcome := "Welcome 0xAA, you have 100 FOO.";
            waiting_for := None;
            error_message := Some "could not detect network";
            no_tokens_for := None; transfer_form := Some "FOO" |}.
  split; [by vm_compute|].
  refine (proj2 (Hpage _ _)). by vm_compute.
Defined.

Lemma transfer_confirmation_fails_witness :
  let w' := exec (transferTokens "0xBB" 10%N) dropping_connected in
  transactionError (dapp w') = Val rpc_error
  ∧ txBeingSent (dapp w') = Null
  ∧ balance (dapp w') = Val 100%N.
Proof.
  destruct (transfer_confirmation_fails dropping_connected the_contract
              "0xBB" 10%N {| hash := "0xabc" |}
              (token_transfer "0xBB" 10%N (remote dropping_connected)).2
              rpc_error
              (tx_wait {| hash := "0xabc" |}
                 (token_transfer "0xBB" 10%N
                    (remote dropping_connected)).2).2)
    as (_ & He & Ht & Hb & _);
    [reflexivity|reflexivity|reflexivity|discriminate|].
  split; [exact He|]. split; [exact Ht|]. by rewrite Hb.
Defined.

Lemma transfer_waiting_to_be_mined_witness :
  let w' := exec (transferTokens "0xBB" 10%N) stalling_connected in
  txBeingSent (dapp w') = Val "0xabc"
  ∧ ∃ scr,
      render_page w' = DappPage scr ∧ waiting_for scr = Some "0xabc".
Proof.
  destruct (transfer_waiting_to_be_mined stalling_connected the_contract
              "0xBB" 10%N {| hash := "0xabc" |}
              (token_transfer "0xBB" 10%N (remote stalling_connected)).2
              (tx_wait {| hash := "0xabc" |}
                 (token_transfer "0xBB" 10%N
                    (remote stalling_connected)).2).2)
    as (_ & Ht & _ & Hpage); [reflexivity..|].
  split; [exact Ht|].
  exists {| heading := "Foo (FOO)";
            welcome := "Welcome 0xAA, you have 100 FOO.";
            waiting_for := Some "0xabc"; error_message := None;
            no_tokens_for := None; transfer_form := Some "FOO" |}.
  split; [by vm_compute|].
  refine (proj1 (Hpage _ _ _)); [by vm_compute|discriminate].
Defined.

Lemma connect_without_name_witness :
  let w := initial_world HARDHAT_NETWORK_ID nameless_script in
  let w' := exec connectWallet w in
  tokenData (dapp w') = Undefined
  ∧ myAddress (dapp w') = Val "0xAA"
  ∧ render_page w' = LoadingPage.
Proof.
  destruct (connect_without_name
              (initial_world HARDHAT_NETWORK_ID nameless_script) "0xAA" []
              (ethereum_enable nameless_script).2)
    as (Htd & Ha & _ & _ & _ & Hpage);
    [reflexivity|reflexivity|discriminate|].
  split; [exact Htd|]. split; [exact Ha|].
  apply Hpage; [reflexivity|discriminate].
Defined.

Lemma ticks_touch_only_balance_witness :
  let w := exec connectWallet
             (initial_world HARDHAT_NETWORK_ID nameless_script) in
  let w' := run (TimerFires <$> [1; 1; 1]) w in
  tokenData (dapp w') = Undefined
  ∧ intervals (window w') = {[1]}
  ∧ ∀ scr, render_page w' ≠ DappPage scr.
Proof.
  destruct (ticks_touch_only_balance [1; 1; 1]
              (exec connectWallet
                 (initial_world HARDHAT_NETWORK_ID nameless_script)))
    as (_ & _ & _ & Htd & _ & _ & _ & Hi & _ & Hpage).
  split; [exact Htd|]. split; [exact Hi|]. apply Hpage. reflexivity.
Defined.

Lemma stop_is_idempotent_witness :
  let w := initial_world HARDHAT_NETWORK_ID silence in
  exec stopPollingData w = w
  ∧ stopPollingData (exec stopPollingData flaky_connected)
    = (Ok (), exec stopPollingData flaky_connected).
Proof.
  split.
  - apply (proj2 (stop_is_idempotent
                    (initial_world HARDHAT_NETWORK_ID silence))).
    reflexivity.
  - apply (proj1 (stop_is_idempotent flaky_connected)).
Defined.

Lemma tokens_or_form_witness :
  ∃ a td bal,
    myAddress (dapp foo_connected) = Val a
    ∧ tokenData (dapp foo_connected) = Val td
    ∧ balance (dapp foo_connected) = Val bal
    ∧ ((bal = 0%N ∧ @None Address = Some a ∧ Some "FOO" = None)
       ∨ ((0 < bal)%N ∧ @None Address = None
          ∧ Some "FOO" = Some (symbol td))).
Proof.
  exact (tokens_or_form foo_connected
           {| heading := "Foo (FOO)";
              welcome := "Welcome 0xAA, you have 100 FOO.";
              waiting_for := None; error_message := None;
              no_tokens_for := None; transfer_form := Some "FOO" |}
           eq_refl).
Defined.

Lemma handle_never_stale_witness :
  let w := run [ClickConnect] (initial_world HARDHAT_NETWORK_ID foo_ledger) in
  pollDataInterval (dapp w) = Val 1
  ∧ 1 ∈ intervals (window w)
  ∧ 1 ∉ intervals (window (exec stopPollingData w)).
Proof.
  destruct (handle_never_stale HARDHAT_NETWORK_ID foo_ledger [ClickConnect])
    as [_ Hid].
  split; [reflexivity|]. apply (Hid 1). reflexivity.
Defined.

Lemma contract_set_where_used_witness :
  let w := run [ClickConnect] (initial_world HARDHAT_NETWORK_ID foo_ledger) in
  token (dapp w) = Val the_contract
  ∧ (∃ more,
       calls (exec (transferTokens "0xBB" 10%N) w)
       = calls w ++ CallTransfer "0xBB" 10%N :: more)
  ∧ calls (exec (timer_fires 1) w)
    = calls w ++ [CallBalanceOf (Val "0xAA")].
Proof.
  destruct (contract_set_where_used HARDHAT_NETWORK_ID foo_ledger
              [ClickConnect]) as (Htok & Htr & Htick).
  split; [apply Htok; left; discriminate|]. split.
  - eapply (Htr _ "0xBB" 10%N). reflexivity.
  - apply (Htick 1). apply (bool_decide_unpack _). by vm_compute.
Defined.
